(** * Servvia symptom analyzer: a shallow embedding of
    [farmer-chat/intent_classification/symptom_classifier.py].

    The file follows the Python module top to bottom:
    - [Py]: the Python values and builtins the module uses
      ([str.strip], [str.replace], [str.title], [str()], [dict.get], ...);
    - [Eff]: the effects of the module, as a trace of observable events
      (completion requests sent, chunks yielded) with exceptions;
    - [AnalysisResult], [ServviaSymptomAnalyzer], [ServviaAPI];
    - the properties of the analysis pipeline.

    Text is modelled by [string], a sequence of 8-bit characters.  A
    character stands for the code point of its number, 0..255, except 128,
    129 and 130, which stand for U+0178, U+039C and U+03BC ([Py.ord]): with
    them the characters are closed under [str.title], so that [strip],
    [title], [replace] and [repr] are Python's on every text of the model.
    A float is carried by its [repr()]. *)

Set Warnings "-register-all".
From Stdlib Require Import String Ascii List ZArith NArith Bool Lia QArith.
From Stdlib Require Import DecimalString.
Import ListNotations.

Close Scope Q_scope.
Open Scope list_scope.
Open Scope string_scope.

(* ================================================================= *)
(** ** Python values and builtins *)

Module Py.

(** The double quote and the line feed, which string literals here avoid. *)
Definition dq : string := String (ascii_of_nat 34) EmptyString.
Definition nl : string := String (ascii_of_nat 10) EmptyString.

(** The values that flow through the module: JSON documents decoded by
    [json.loads], the metadata of a request, and the dictionaries returned
    to the transport layer.  Dictionaries keep insertion order, as Python's
    do, and are keyed by strings. *)
Inductive PyVal : Type :=
| PyNone
| PyBool (b : bool)
| PyInt (z : Z)
| PyFloat (repr : string)
| PyStr (s : string)
| PyList (l : list PyVal)
| PyDict (d : list (string * PyVal)).

(** Exception classes met in the module.  All derive from [Exception];
    [JSONDecodeError] derives from [ValueError].  [LibraryError] stands for
    the exception classes of the OpenAI client (direct subclasses of
    [Exception]). *)
Inductive ExcClass : Type :=
| Exception
| ValueError
| JSONDecodeError
| TypeError
| IndexError
| AttributeError
| LibraryError (name : string).

(** A raised exception: its class and [str(e)]. *)
Record PyExc : Type := mkExc { exc_class : ExcClass; exc_str : string }.

(** [isinstance(e, cls)] for the two classes the [except] clauses name
    below [Exception]. *)
Definition is_JSONDecodeError (e : PyExc) : bool :=
  match exc_class e with JSONDecodeError => true | _ => false end.

Definition is_ValueError (e : PyExc) : bool :=
  match exc_class e with ValueError | JSONDecodeError => true | _ => false end.

(** *** Strings *)

(** The code point a character stands for.  The three control codes
    128, 129 and 130 are not used as such: they stand for the letters
    U+0178, U+039C and U+03BC, which title-casing and lowering reach from
    U+00FF and U+00B5. *)
Definition ord (c : ascii) : N :=
  match N_of_ascii c with
  | 128 => 376
  | 129 => 924
  | 130 => 956
  | n => n
  end%N.

(** [str.isspace] on one character. *)
Definition isspace (c : ascii) : bool :=
  let n := N_of_ascii c in
  (((9 <=? n) && (n <=? 13)) || ((28 <=? n) && (n <=? 32))
   || (n =? 133) || (n =? 160))%N.

Fixpoint lstrip (s : string) : string :=
  match s with
  | EmptyString => EmptyString
  | String c s' => if isspace c then lstrip s' else s
  end.

Fixpoint rstrip (s : string) : string :=
  match s with
  | EmptyString => EmptyString
  | String c s' =>
      match rstrip s' with
      | EmptyString => if isspace c then EmptyString else String c EmptyString
      | t => String c t
      end
  end.

(** [s.strip()] *)
Definition strip (s : string) : string := rstrip (lstrip s).

(** [s.replace(old, new)]: left to right, matches do not overlap. *)
Fixpoint replace_from (old new : string) (skip : nat) (s : string) : string :=
  match s with
  | EmptyString => EmptyString
  | String c s' =>
      match skip with
      | S k => replace_from old new k s'
      | O =>
          if prefix old s
          then new ++ replace_from old new (String.length old - 1) s'
          else String c (replace_from old new 0 s')
      end
  end.

Fixpoint replace_empty (new s : string) : string :=
  match s with
  | EmptyString => new
  | String c s' => new ++ String c (replace_empty new s')
  end.

Definition replace (old new s : string) : string :=
  match old with
  | EmptyString => replace_empty new s
  | _ => replace_from old new 0 s
  end.

(** The upper-case letters whose lower case lies 32 places above (A..Z,
    U+00C0..U+00DE without the multiplication sign), and the lower-case
    letters whose title case lies 32 places below (a..z, U+00E0..U+00FE
    without the division sign). *)
Definition is_upper (c : ascii) : bool :=
  let n := N_of_ascii c in
  (((65 <=? n) && (n <=? 90)) || ((192 <=? n) && (n <=? 214))
   || ((216 <=? n) && (n <=? 222)))%N.
Definition is_lower (c : ascii) : bool :=
  let n := N_of_ascii c in
  (((97 <=? n) && (n <=? 122)) || ((224 <=? n) && (n <=? 246))
   || ((248 <=? n) && (n <=? 254)))%N.

(** The cased characters: the letters with a case, and the ordinal
    indicators U+00AA and U+00BA. *)
Definition is_cased (c : ascii) : bool :=
  let n := N_of_ascii c in
  (((65 <=? n) && (n <=? 90)) || ((97 <=? n) && (n <=? 122))
   || ((128 <=? n) && (n <=? 130)) || (n =? 170) || (n =? 181) || (n =? 186)
   || ((192 <=? n) && (n <=? 214)) || ((216 <=? n) && (n <=? 246))
   || (248 <=? n))%N.

(** The lower-case mapping: U+0178 goes to U+00FF, U+039C to U+03BC. *)
Definition to_lower (c : ascii) : ascii :=
  let n := N_of_ascii c in
  if is_upper c then ascii_of_N (n + 32)
  else if (n =? 128)%N then ascii_of_N 255
  else if (n =? 129)%N then ascii_of_N 130
  else c.

(** The title-case mapping: U+00DF goes to the two characters Ss, U+00FF
    to U+0178, U+00B5 and U+03BC to U+039C. *)
Definition to_title (c : ascii) : string :=
  let n := N_of_ascii c in
  if is_lower c then String (ascii_of_N (n - 32)) EmptyString
  else if (n =? 223)%N then "Ss"
  else if (n =? 255)%N then String (ascii_of_N 128) EmptyString
  else if (n =? 181)%N || (n =? 130)%N then String (ascii_of_N 129) EmptyString
  else String c EmptyString.

(** [s.title()]: a character after a cased one is lowered, any other is
    title-cased. *)
Fixpoint title_from (previous_is_cased : bool) (s : string) : string :=
  match s with
  | EmptyString => EmptyString
  | String c s' =>
      (if previous_is_cased then String (to_lower c) EmptyString else to_title c)
      ++ title_from (is_cased c) s'
  end.

Definition title (s : string) : string := title_from false s.

(** [sub in s] *)
Fixpoint contains (sub s : string) : bool :=
  prefix sub s ||
  match s with
  | EmptyString => false
  | String _ s' => contains sub s'
  end.

(** [sep.join(parts)] *)
Fixpoint join (sep : string) (parts : list string) : string :=
  match parts with
  | [] => EmptyString
  | [p] => p
  | p :: rest => p ++ sep ++ join sep rest
  end.

(** *** [repr] and [str] *)

Definition hex_digit (n : N) : ascii :=
  if (n <? 10)%N then ascii_of_N (48 + n) else ascii_of_N (87 + n).

Definition is_printable (c : ascii) : bool :=
  let n := N_of_ascii c in
  negb ((n <? 32) || (n =? 127) || ((131 <=? n) && (n <=? 160)) || (n =? 173))%N.

(** One character of [repr(s)] inside the quotes [quote]. *)
Definition repr_char (quote c : ascii) : string :=
  let n := N_of_ascii c in
  if Ascii.eqb c quote || (n =? 92)%N then String (ascii_of_N 92) (String c EmptyString)
  else if (n =? 9)%N then String (ascii_of_N 92) "t"
  else if (n =? 10)%N then String (ascii_of_N 92) "n"
  else if (n =? 13)%N then String (ascii_of_N 92) "r"
  else if is_printable c then String c EmptyString
  else String (ascii_of_N 92)
         (String "x" (String (hex_digit (n / 16)) (String (hex_digit (n mod 16)) EmptyString))).

Definition repr_str (s : string) : string :=
  let sq := ascii_of_N 39 in
  let quote :=
    if contains (String sq EmptyString) s && negb (contains dq s)
    then ascii_of_N 34 else sq in
  String quote (String.concat EmptyString (map (repr_char quote) (list_ascii_of_string s)))
  ++ String quote EmptyString.

(** [str(n)] for an [int] *)
Definition str_int (z : Z) : string := NilZero.string_of_int (Z.to_int z).

Fixpoint repr (v : PyVal) : string :=
  match v with
  | PyNone => "None"
  | PyBool b => if b then "True" else "False"
  | PyInt z => str_int z
  | PyFloat r => r
  | PyStr s => repr_str s
  | PyList l => "[" ++ join ", " (map repr l) ++ "]"
  | PyDict d =>
      "{" ++ join ", " (map (fun kv => repr_str (fst kv) ++ ": " ++ repr (snd kv)) d) ++ "}"
  end.

(** [str(v)], which is also what an f-string field [{v}] renders. *)
Definition str (v : PyVal) : string :=
  match v with
  | PyStr s => s
  | _ => repr v
  end.

(** *** Truth value, types, dictionaries *)

(** [bool(v)] *)
Definition truthy (v : PyVal) : bool :=
  match v with
  | PyNone => false
  | PyBool b => b
  | PyInt z => negb (z =? 0)%Z
  | PyFloat r => negb (String.eqb r "0.0" || String.eqb r "-0.0")
  | PyStr s => negb (String.eqb s EmptyString)
  | PyList l => match l with [] => false | _ => true end
  | PyDict d => match d with [] => false | _ => true end
  end.

(** [isinstance(v, str)] *)
Definition isinstance_str (v : PyVal) : bool :=
  match v with PyStr _ => true | _ => false end.

(** [type(v).__name__] *)
Definition type_name (v : PyVal) : string :=
  match v with
  | PyNone => "NoneType"
  | PyBool _ => "bool"
  | PyInt _ => "int"
  | PyFloat _ => "float"
  | PyStr _ => "str"
  | PyList _ => "list"
  | PyDict _ => "dict"
  end.

Definition no_attribute (v : PyVal) (attr : string) : PyExc :=
  mkExc AttributeError
        ("'" ++ type_name v ++ "' object has no attribute '" ++ attr ++ "'").

(** [d.get(key)] on an insertion-ordered dictionary. *)
Fixpoint lookup (d : list (string * PyVal)) (key : string) : option PyVal :=
  match d with
  | [] => None
  | (k, v) :: rest => if String.eqb k key then Some v else lookup rest key
  end.

(** [d[key] = value]: a present key keeps its place. *)
Fixpoint setitem (d : list (string * PyVal)) (key : string) (value : PyVal)
  : list (string * PyVal) :=
  match d with
  | [] => [(key, value)]
  | (k, v) :: rest =>
      if String.eqb k key then (k, value) :: rest
      else (k, v) :: setitem rest key value
  end.

(** [v.get(key, default)]; only a [dict] has the method. *)
Definition get (v : PyVal) (key : string) (default : PyVal) : PyExc + PyVal :=
  match v with
  | PyDict d => inr (match lookup d key with Some x => x | None => default end)
  | _ => inl (no_attribute v "get")
  end.

(** [v.strip()]; only a [str] has the method. *)
Definition strip_method (v : PyVal) : PyExc + string :=
  match v with
  | PyStr s => inr (strip s)
  | _ => inl (no_attribute v "strip")
  end.

(** [xs[0]] *)
Definition item0 {A : Type} (xs : list A) : PyExc + A :=
  match xs with
  | x :: _ => inr x
  | [] => inl (mkExc IndexError "list index out of range")
  end.

(** [v == s] for a string [s]: only an equal [str] is equal to it. *)
Definition eq_str (v : PyVal) (s : string) : bool :=
  match v with
  | PyStr x => String.eqb x s
  | _ => false
  end.

(** [item in container] for a string [item]: a key of a [dict], an
    element of a [list], a substring of a [str]; the other values are not
    containers. *)
Definition contains_str (item : string) (container : PyVal) : PyExc + bool :=
  match container with
  | PyDict d => inr (match lookup d item with Some _ => true | None => false end)
  | PyList l => inr (existsb (fun x => eq_str x item) l)
  | PyStr s => inr (contains item s)
  | _ =>
      inl (mkExc TypeError
             ("argument of type '" ++ type_name container ++ "' is not iterable"))
  end.

End Py.


(* ================================================================= *)
(** ** The completion service *)

(** [from openai import OpenAI]: the client is outside this repository.
    It is an oracle: what [client.chat.completions.create] answers to a
    request, or the exception it raises.  [create] is the call without
    [stream]; [create_stream] the call with [stream=True]. *)
Module OpenAI.
Import Py.

Record Message : Type := mkMessage { role : string; content : string }.

(** The keyword arguments of [create]. *)
Record Request : Type := mkRequest {
  model : string;
  messages : list Message;
  temperature : Q;
  max_tokens : Z;
  stream : option bool;
  response_format : list (string * string)
}.

(** A completion, by [choices[i].message.content]. *)
Record ChatCompletion : Type := mkCompletion { choices : list (option string) }.

(** A streamed chunk, by [choices[i].delta.content]. *)
Record ChatCompletionChunk : Type := mkChunk { delta_choices : list (option string) }.

(** The iterable a streaming call returns: its chunks in order, and the
    exception the iteration ends with when the transport fails. *)
Record Stream : Type := mkStream {
  chunks : list ChatCompletionChunk;
  failure : option PyExc
}.

Record Client : Type := mkClient {
  create : Request -> PyExc + ChatCompletion;
  create_stream : Request -> PyExc + Stream
}.

End OpenAI.

(** [import json]: the decoder is outside this repository as well. *)
Module Json.
Import Py.

Definition Decoder : Type := string -> PyExc + PyVal.

(** [json.loads(s)] where [s] may be [None]. *)
Definition loads (decode : Decoder) (s : option string) : PyExc + PyVal :=
  match s with
  | Some text => decode text
  | None =>
      inl (mkExc TypeError
             "the JSON object must be str, bytes or bytearray, not NoneType")
  end.

End Json.

(* ================================================================= *)
(** ** Effects: requests sent, chunks yielded, exceptions raised *)

Module Eff.
Import Py.

Inductive Event : Type :=
| Sent (request : OpenAI.Request)
| Yielded (chunk : string).

Definition Trace : Type := list Event.

(** A computation extends the trace and returns or raises.  Events that
    happened before an exception stay in the trace. *)
Definition M (A : Type) : Type := Trace -> (PyExc + A) * Trace.

Definition ret {A : Type} (a : A) : M A := fun t => (inr a, t).

Definition bind {A B : Type} (c : M A) (k : A -> M B) : M B :=
  fun t =>
    match c t with
    | (inr a, t') => k a t'
    | (inl e, t') => (inl e, t')
    end.

Definition raise {A : Type} (e : PyExc) : M A := fun t => (inl e, t).

Definition lift {A : Type} (r : PyExc + A) : M A := fun t => (r, t).

(** [try: body except Exception as e: handler(e)] *)
Definition try_except {A : Type} (body : M A) (handler : PyExc -> M A) : M A :=
  fun t =>
    match body t with
    | (inl e, t') => handler e t'
    | r => r
    end.

Definition emit (ev : Event) : M unit := fun t => (inr tt, (t ++ [ev])%list).

(** [yield chunk] *)
Definition yield (chunk : string) : M unit := emit (Yielded chunk).

(** [client.chat.completions.create] with the keyword arguments [request] *)
Definition call_create (client : OpenAI.Client) (request : OpenAI.Request)
  : M OpenAI.ChatCompletion :=
  bind (emit (Sent request)) (fun _ => lift (OpenAI.create client request)).

Definition call_create_stream (client : OpenAI.Client) (request : OpenAI.Request)
  : M OpenAI.Stream :=
  bind (emit (Sent request)) (fun _ => lift (OpenAI.create_stream client request)).

(** The requests of a trace and the chunks of a trace, in order. *)
Definition sent (t : Trace) : list OpenAI.Request :=
  flat_map (fun ev => match ev with Sent r => [r] | Yielded _ => [] end) t.

Definition yielded (t : Trace) : list string :=
  flat_map (fun ev => match ev with Yielded c => [c] | Sent _ => [] end) t.

End Eff.

Declare Scope eff_scope.
Delimit Scope eff_scope with eff.
Notation "x <- c ;; k" := (Eff.bind c (fun x => k))
  (at level 61, c at next level, right associativity) : eff_scope.
Notation "c ;;; k" := (Eff.bind c (fun _ => k))
  (at level 61, right associativity) : eff_scope.

(* ================================================================= *)
(** ** [AnalysisResult] *)

Import Py.

(** The dataclass.  Its annotations are not enforced: a field holds
    whatever value the constructor was given. *)
Record AnalysisResult : Type := mkAnalysisResult {
  condition : PyVal;
  severity : PyVal;
  confidence : PyVal;
  analysis : PyVal;
  remedies : PyVal;
  when_to_see_doctor : PyVal;
  precautions : PyVal;
  disclaimer : PyVal
}.

(** [AnalysisResult.to_dict], that is [dataclasses.asdict]. *)
Definition to_dict (self : AnalysisResult) : PyVal :=
  PyDict [("condition", condition self);
          ("severity", severity self);
          ("confidence", confidence self);
          ("analysis", analysis self);
          ("remedies", remedies self);
          ("when_to_see_doctor", when_to_see_doctor self);
          ("precautions", precautions self);
          ("disclaimer", disclaimer self)].

(* ================================================================= *)
(** ** [ServviaSymptomAnalyzer] *)

Module ServviaSymptomAnalyzer.
Import OpenAI Eff.
Local Open Scope eff_scope.

Definition SYSTEM_PROMPT : string :=
  join nl
    ["You are Servvia's medical AI assistant, specialized in analyzing symptoms and providing helpful remedies. ";
     EmptyString;
     "Your role is to:";
     "1. Analyze the user's symptoms intelligently";
     "2. Identify the most likely condition(s)";
     "3. Provide practical, safe home remedies";
     "4. Give clear guidance on when professional medical help is needed";
     "5. Always prioritize patient safety";
     EmptyString;
     "IMPORTANT GUIDELINES:";
     "- Never diagnose definitively - use terms like " ++ dq ++ "may indicate" ++ dq ++ ", " ++ dq ++ "could be" ++ dq ++ ", " ++ dq ++ "commonly associated with" ++ dq;
     "- Always include when to seek professional medical help";
     "- Focus on evidence-based remedies and self-care";
     "- Flag emergency symptoms immediately";
     "- Be empathetic and reassuring while being informative";
     EmptyString;
     "OUTPUT FORMAT (respond ONLY with valid JSON):";
     "{";
     "  " ++ dq ++ "condition" ++ dq ++ ": " ++ dq ++ "Most likely condition name" ++ dq ++ ",";
     "  " ++ dq ++ "severity" ++ dq ++ ": " ++ dq ++ "mild/moderate/severe/emergency" ++ dq ++ ",";
     "  " ++ dq ++ "confidence" ++ dq ++ ": " ++ dq ++ "low/medium/high" ++ dq ++ ",";
     "  " ++ dq ++ "analysis" ++ dq ++ ": " ++ dq ++ "Brief analysis of the symptoms and what they may indicate" ++ dq ++ ",";
     "  " ++ dq ++ "remedies" ++ dq ++ ": [" ++ dq ++ "List of practical remedies and self-care steps" ++ dq ++ "],";
     "  " ++ dq ++ "when_to_see_doctor" ++ dq ++ ": [" ++ dq ++ "Specific signs that indicate need for professional care" ++ dq ++ "],";
     "  " ++ dq ++ "precautions" ++ dq ++ ": [" ++ dq ++ "Important precautions and things to avoid" ++ dq ++ "],";
     "  " ++ dq ++ "disclaimer" ++ dq ++ ": " ++ dq ++ "Standard medical disclaimer" ++ dq;
     "}"].

Record Analyzer : Type := mkAnalyzer {
  api_key : string;
  client : Client;
  model : string;
  system_prompt : string
}.

(** [__init__]: [getenv] is [os.getenv("OPENAI_API_KEY")] and [OpenAI_]
    the client constructor. *)
Definition __init__ (getenv : option string) (OpenAI_ : string -> Client)
           (api_key : option string) (model : string) : PyExc + Analyzer :=
  let key :=
    match api_key with
    | Some k => if truthy (PyStr k) then Some k else getenv
    | None => getenv
    end in
  match key with
  | Some k =>
      if truthy (PyStr k)
      then inr (mkAnalyzer k (OpenAI_ k) model SYSTEM_PROMPT)
      else inl (mkExc ValueError
                  "OpenAI API key required. Set OPENAI_API_KEY environment variable or pass api_key parameter")
  | None =>
      inl (mkExc ValueError
             "OpenAI API key required. Set OPENAI_API_KEY environment variable or pass api_key parameter")
  end.

(** [_build_prompt] *)
Definition _build_prompt (symptoms : PyVal)
           (additional_info : option (list (string * PyVal))) : string :=
  let prompt := "Please analyze these symptoms:" ++ nl ++ nl ++ str symptoms in
  let prompt :=
    match additional_info with
    | Some info =>
        if truthy (PyDict info)
        then
          fold_left
            (fun prompt kv =>
               prompt ++ nl ++ "- " ++ title (replace "_" " " (fst kv))
                      ++ ": " ++ str (snd kv))
            info
            (prompt ++ nl ++ nl ++ "Additional Information:")
        else prompt
    | None => prompt
    end in
  prompt ++ nl ++ nl ++ "Provide your analysis in the specified JSON format.".

(** The keyword arguments both calls share. *)
Definition request (self : Analyzer) (user_message : string) (stream : option bool)
  : Request :=
  mkRequest (model self)
            [mkMessage "system" (system_prompt self);
             mkMessage "user" user_message]
            (7 # 10)%Q
            2000%Z
            stream
            [("type", "json_object")].

Definition DEFAULT_DISCLAIMER : string :=
  "This is not a medical diagnosis. Consult a healthcare professional.".

(** The construction of the result from the decoded document; both
    methods spell it out in the same words. *)
Definition result_of (result_data : PyVal) : PyExc + AnalysisResult :=
  match get result_data "condition" (PyStr "Unknown") with inl e => inl e | inr c =>
  match get result_data "severity" (PyStr "moderate") with inl e => inl e | inr s =>
  match get result_data "confidence" (PyStr "medium") with inl e => inl e | inr f =>
  match get result_data "analysis" (PyStr EmptyString) with inl e => inl e | inr a =>
  match get result_data "remedies" (PyList []) with inl e => inl e | inr r =>
  match get result_data "when_to_see_doctor" (PyList []) with inl e => inl e | inr w =>
  match get result_data "precautions" (PyList []) with inl e => inl e | inr p =>
  match get result_data "disclaimer" (PyStr DEFAULT_DISCLAIMER) with inl e => inl e | inr d =>
  inr (mkAnalysisResult c s f a r w p d)
  end end end end end end end end.

(** The [except] clauses of [analyze_symptoms]: [json.JSONDecodeError]
    first, then [Exception]. *)
Definition reraise (e : PyExc) : PyExc :=
  if is_JSONDecodeError e
  then mkExc Exception "AI returned invalid response format"
  else mkExc Exception ("Failed to analyze symptoms: " ++ exc_str e).

(** The single [except Exception] clause of [analyze_with_streaming]. *)
Definition reraise_streaming (e : PyExc) : PyExc :=
  mkExc Exception ("Failed to analyze symptoms: " ++ exc_str e).

Section WithJson.
Variable json_loads : Json.Decoder.

(** [analyze_symptoms].  Logging is not observable and is left out. *)
Definition analyze_symptoms (self : Analyzer) (symptoms : PyVal)
           (additional_info : option (list (string * PyVal))) : M AnalysisResult :=
  if negb (truthy symptoms) || negb (isinstance_str symptoms)
  then raise (mkExc ValueError "Symptoms must be a non-empty string")
  else
    stripped <- lift (strip_method symptoms) ;;
    if (String.length stripped <? 5)%nat
    then raise (mkExc ValueError "Please provide more detailed symptom description")
    else
      let user_message := _build_prompt symptoms additional_info in
      try_except
        (response <- call_create (client self) (request self user_message None) ;;
         response_text <- lift (item0 (choices response)) ;;
         result_data <- lift (Json.loads json_loads response_text) ;;
         lift (result_of result_data))
        (fun e => raise (reraise e)).

(** The body of [for chunk in stream]. *)
Fixpoint for_chunk_in (stream : list ChatCompletionChunk) (collected_content : string)
  : M string :=
  match stream with
  | [] => ret collected_content
  | chunk :: rest =>
      delta_content <- lift (item0 (delta_choices chunk)) ;;
      match delta_content with
      | Some content =>
          if truthy (PyStr content)
          then yield content ;;; for_chunk_in rest (collected_content ++ content)
          else for_chunk_in rest collected_content
      | None => for_chunk_in rest collected_content
      end
  end.

(** The whole loop: the chunks, then the failure of the iterator if any. *)
Definition iterate (stream : Stream) : M string :=
  collected_content <- for_chunk_in (chunks stream) EmptyString ;;
  match failure stream with
  | Some e => raise e
  | None => ret collected_content
  end.

(** [analyze_with_streaming], the generator run to exhaustion: the trace
    holds what it yielded, the result is the value it returns. *)
Definition analyze_with_streaming (self : Analyzer) (symptoms : PyVal)
           (additional_info : option (list (string * PyVal))) : M AnalysisResult :=
  let user_message := _build_prompt symptoms additional_info in
  try_except
    (stream <- call_create_stream (client self) (request self user_message (Some true)) ;;
     collected_content <- iterate stream ;;
     result_data <- lift (Json.loads json_loads (Some collected_content)) ;;
     lift (result_of result_data))
    (fun e => raise (reraise_streaming e)).

End WithJson.
End ServviaSymptomAnalyzer.

(* ================================================================= *)
(** ** [ServviaAPI] *)

Module ServviaAPI.
Import Eff.
Local Open Scope eff_scope.

Record API : Type := mkAPI { analyzer : ServviaSymptomAnalyzer.Analyzer }.

(** [__init__]: the facade owns one analyzer. *)
Definition __init__ (getenv : option string) (OpenAI_ : string -> OpenAI.Client)
           (api_key : option string) (model : string) : PyExc + API :=
  match ServviaSymptomAnalyzer.__init__ getenv OpenAI_ api_key model with
  | inr analyzer => inr (mkAPI analyzer)
  | inl e => inl e
  end.

(** The block under [# Build additional info]. *)
Definition build_additional_info
           (age gender duration severity_level medical_history : PyVal)
  : list (string * PyVal) :=
  let additional_info := [] in
  let additional_info :=
    if truthy age then setitem additional_info "age" age else additional_info in
  let additional_info :=
    if truthy gender then setitem additional_info "gender" gender else additional_info in
  let additional_info :=
    if truthy duration then setitem additional_info "duration" duration
    else additional_info in
  let additional_info :=
    if truthy severity_level
    then setitem additional_info "severity_level" severity_level
    else additional_info in
  let additional_info :=
    if truthy medical_history
    then setitem additional_info "medical_history" medical_history
    else additional_info in
  additional_info.

(** [additional_info if additional_info else None] *)
Definition additional_info_or_None
           (age gender duration severity_level medical_history : PyVal)
  : option (list (string * PyVal)) :=
  let additional_info :=
    build_additional_info age gender duration severity_level medical_history in
  if truthy (PyDict additional_info) then Some additional_info else None.

Section WithJson.
Variable json_loads : Json.Decoder.

(** [ServviaAPI.analyze] *)
Definition analyze (self : API) (symptoms : PyVal)
           (age gender duration severity_level medical_history : PyVal) : M PyVal :=
  try_except
    (result <- ServviaSymptomAnalyzer.analyze_symptoms json_loads (analyzer self) symptoms
                 (additional_info_or_None age gender duration severity_level
                                          medical_history) ;;
     ret (PyDict [("status", PyStr "success"); ("data", to_dict result)]))
    (fun e =>
       if is_ValueError e
       then ret (PyDict [("status", PyStr "error");
                         ("error", PyStr (exc_str e));
                         ("code", PyStr "INVALID_INPUT")])
       else ret (PyDict [("status", PyStr "error");
                         ("error", PyStr "Failed to analyze symptoms. Please try again.");
                         ("code", PyStr "ANALYSIS_FAILED")])).

End WithJson.
End ServviaAPI.

(* ================================================================= *)
(** ** [create_flask_app] *)

(** The Flask application.  The framework is outside this repository: a
    view is given the value of [request.get_json()] and returns the JSON
    body it hands to [jsonify] with the status of the response (200 when
    the view returns the body alone). *)
Module FlaskApp.
Import Eff.
Local Open Scope eff_scope.

Section WithJson.
Variable json_loads : Json.Decoder.

(** The view of [/api/analyze]. *)
Definition analyze_symptoms (servvia_api : ServviaAPI.API) (data : PyVal)
  : M (PyVal * Z) :=
  missing <- (if negb (truthy data) then ret true
              else present <- lift (contains_str "symptoms" data) ;;
                   ret (negb present)) ;;
  if (missing : bool)
  then ret (PyDict [("status", PyStr "error");
                    ("error", PyStr "Symptoms field is required")], 400%Z)
  else
    symptoms <- lift (get data "symptoms" PyNone) ;;
    age <- lift (get data "age" PyNone) ;;
    gender <- lift (get data "gender" PyNone) ;;
    duration <- lift (get data "duration" PyNone) ;;
    severity_level <- lift (get data "severity_level" PyNone) ;;
    medical_history <- lift (get data "medical_history" PyNone) ;;
    result <- ServviaAPI.analyze json_loads servvia_api symptoms
                age gender duration severity_level medical_history ;;
    ret (result, 200%Z).

(** [create_flask_app]: [ServviaAPI()] with its defaults, then the view
    closed over it. *)
Definition create_flask_app (getenv : option string) (OpenAI_ : string -> OpenAI.Client)
  : PyExc + (PyVal -> M (PyVal * Z)) :=
  match ServviaAPI.__init__ getenv OpenAI_ None "gpt-4o" with
  | inr servvia_api => inr (analyze_symptoms servvia_api)
  | inl e => inl e
  end.

End WithJson.

(** The view of [/health]. *)
Definition health_check : PyVal * Z :=
  (PyDict [("status", PyStr "healthy"); ("service", PyStr "Servvia")], 200%Z).

End FlaskApp.

(* ================================================================= *)
(** ** [create_fastapi_app] *)

(** The FastAPI application.  The framework validates the body against
    [SymptomRequest] before the endpoint runs, so the endpoint is given a
    typed request. *)
Module FastAPIApp.
Import Eff.

(** [class SymptomRequest(BaseModel)] *)
Record SymptomRequest : Type := mkSymptomRequest {
  symptoms : string;
  age : option Z;
  gender : option string;
  duration : option string;
  severity_level : option string;
  medical_history : option string
}.

(** What the endpoint can raise: an exception of the facade, the
    [KeyError] of a subscript, or [HTTPException(status_code, detail)]. *)
Inductive Raised : Type :=
| Propagated (e : PyExc)
| KeyError (key : string)
| HTTPException (status_code : Z) (detail : PyVal).

Definition of_int (v : option Z) : PyVal :=
  match v with Some z => PyInt z | None => PyNone end.

Definition of_str (v : option string) : PyVal :=
  match v with Some s => PyStr s | None => PyNone end.

(** [v[key]] for a string [key] *)
Definition subscript (v : PyVal) (key : string) : Raised + PyVal :=
  match v with
  | PyDict d =>
      match lookup d key with
      | Some x => inr x
      | None => inl (KeyError key)
      end
  | PyList _ =>
      inl (Propagated (mkExc TypeError "list indices must be integers or slices, not str"))
  | PyStr _ =>
      inl (Propagated (mkExc TypeError "string indices must be integers, not 'str'"))
  | _ =>
      inl (Propagated (mkExc TypeError
                         ("'" ++ type_name v ++ "' object is not subscriptable")))
  end.

Section WithJson.
Variable json_loads : Json.Decoder.

(** The endpoint of [/api/analyze]. *)
Definition analyze_symptoms (servvia_api : ServviaAPI.API) (request : SymptomRequest)
  : Trace -> (Raised + PyVal) * Trace :=
  fun t =>
    match ServviaAPI.analyze json_loads servvia_api (PyStr (symptoms request))
            (of_int (age request)) (of_str (gender request))
            (of_str (duration request)) (of_str (severity_level request))
            (of_str (medical_history request)) t with
    | (inl e, t') => (inl (Propagated e), t')
    | (inr result, t') =>
        match subscript result "status" with
        | inl r => (inl r, t')
        | inr status =>
            if eq_str status "error"
            then
              match subscript result "error" with
              | inl r => (inl r, t')
              | inr detail => (inl (HTTPException 400%Z detail), t')
              end
            else (inr result, t')
        end
    end.

End WithJson.

(** The endpoint of [/health]. *)
Definition health_check : PyVal :=
  PyDict [("status", PyStr "healthy"); ("service", PyStr "Servvia")].

End FastAPIApp.

(* ================================================================= *)
(** ** Predicates of the specification *)

Module Spec.

(** The precondition on the symptom text: a string of at least five
    characters once trimmed. *)
Definition valid_symptoms (symptoms : PyVal) : Prop :=
  exists s, symptoms = PyStr s /\ 5 <= String.length (strip s).

(** Its failure: not a non-empty string, or shorter than five trimmed
    characters. *)
Definition invalid_symptoms (symptoms : PyVal) : Prop :=
  ~ (exists s, symptoms = PyStr s /\ s <> EmptyString)
  \/ (exists s, symptoms = PyStr s /\ String.length (strip s) < 5).

(** [d.get(key, default)] once the document is known to be an object. *)
Definition field (d : list (string * PyVal)) (key : string) (default : PyVal) : PyVal :=
  match lookup d key with
  | Some v => v
  | None => default
  end.

(** What a chunk contributes to the streamed text: the content of the
    delta of its first choice, nothing when that is absent. *)
Definition delta_text (chunk : OpenAI.ChatCompletionChunk) : string :=
  match OpenAI.delta_choices chunk with
  | Some content :: _ => content
  | _ => EmptyString
  end.

(** The text fragments of a stream: the non-empty delta texts, in order. *)
Definition fragments (stream : list OpenAI.ChatCompletionChunk) : list string :=
  filter (fun s => negb (String.eqb s EmptyString)) (map delta_text stream).

Definition has_choice (chunk : OpenAI.ChatCompletionChunk) : Prop :=
  OpenAI.delta_choices chunk <> [].

(** The line [_build_prompt] writes for one metadata entry. *)
Definition rendered (entry : string * PyVal) : string :=
  nl ++ "- " ++ title (replace "_" " " (fst entry)) ++ ": " ++ str (snd entry).

(** The metadata that is to reach the analyzer: the truthy arguments
    under their names, in the order of the signature, and [None] when no
    argument is truthy. *)
Definition truthy_metadata
           (age gender duration severity_level medical_history : PyVal)
  : option (list (string * PyVal)) :=
  match filter (fun entry => truthy (snd entry))
               [("age", age); ("gender", gender); ("duration", duration);
                ("severity_level", severity_level);
                ("medical_history", medical_history)] with
  | [] => None
  | kept => Some kept
  end.

(** A text of whitespace only (the empty text among them). *)
Fixpoint blank (w : string) : bool :=
  match w with
  | EmptyString => true
  | String c w' => isspace c && blank w'
  end.

(** The eight keys of the output schema, in the order of the dataclass. *)
Definition schema_keys : list string :=
  ["condition"; "severity"; "confidence"; "analysis"; "remedies";
   "when_to_see_doctor"; "precautions"; "disclaimer"].

(** The concatenation of texts, in order. *)
Definition cat (parts : list string) : string :=
  fold_right append EmptyString parts.

(** The text a stream adds up to. *)
Definition stream_text (stream : list OpenAI.ChatCompletionChunk) : string :=
  cat (map delta_text stream).

(** What the [try] block of [analyze_symptoms] computes from the answer
    of the client, before the [except] clauses. *)
Definition parsed (json_loads : Json.Decoder)
           (answer : PyExc + OpenAI.ChatCompletion) : PyExc + AnalysisResult :=
  match answer with
  | inl e => inl e
  | inr response =>
      match item0 (OpenAI.choices response) with
      | inl e => inl e
      | inr response_text =>
          match Json.loads json_loads response_text with
          | inl e => inl e
          | inr result_data => ServviaSymptomAnalyzer.result_of result_data
          end
      end
  end.

(** An [except] clause that re-raises [wrap e]. *)
Definition reraised {A : Type} (wrap : PyExc -> PyExc) (r : PyExc + A) : PyExc + A :=
  match r with
  | inl e => inl (wrap e)
  | inr a => inr a
  end.

End Spec.

(* ================================================================= *)
(** ** Test doubles used to run the model on concrete inputs *)

Module Fixture.
Import OpenAI.

(** A provider that answers every request with the same payload, whole or
    cut into the given deltas. *)
Definition canned_client (payload : option string) (deltas : list (option string))
  : Client :=
  mkClient
    (fun _ => inr (mkCompletion [payload]))
    (fun _ => inr (mkStream (map (fun d => mkChunk [d]) deltas) None)).

(** A decoder given by the documents it accepts and their values; any
    other text is rejected the way [json.loads] rejects a text that does
    not start a JSON value. *)
Definition decoder_of_table (table : list (string * PyVal)) : Json.Decoder :=
  fun text =>
    match lookup table text with
    | Some v => inr v
    | None => inl (mkExc JSONDecodeError "Expecting value: line 1 column 1 (char 0)")
    end.

Definition q (s : string) : string := dq ++ s ++ dq.

Definition new_analyzer (client : Client) : ServviaSymptomAnalyzer.Analyzer :=
  ServviaSymptomAnalyzer.mkAnalyzer "sk-test" client "gpt-4o"
    ServviaSymptomAnalyzer.SYSTEM_PROMPT.

(** [{"condition": "Migraine", "analysis": "May indicate migraine."}] *)
Definition partial_text : string :=
  "{" ++ q "condition" ++ ": " ++ q "Migraine" ++ ", "
      ++ q "analysis" ++ ": " ++ q "May indicate migraine." ++ "}".
Definition partial_value : PyVal :=
  PyDict [("condition", PyStr "Migraine"); ("analysis", PyStr "May indicate migraine.")].

(** [{"severity": "critical", "confidence": "certain"}] *)
Definition unrecognized_text : string :=
  "{" ++ q "severity" ++ ": " ++ q "critical" ++ ", "
      ++ q "confidence" ++ ": " ++ q "certain" ++ "}".
Definition unrecognized_value : PyVal :=
  PyDict [("severity", PyStr "critical"); ("confidence", PyStr "certain")].

(** The eight fields and one key outside the schema. *)
Definition full_text : string :=
  "{" ++ q "condition" ++ ": " ++ q "Migraine" ++ ", "
      ++ q "severity" ++ ": " ++ q "mild" ++ ", "
      ++ q "confidence" ++ ": " ++ q "high" ++ ", "
      ++ q "analysis" ++ ": " ++ q "May indicate migraine." ++ ", "
      ++ q "remedies" ++ ": [" ++ q "Rest" ++ ", " ++ q "Hydrate" ++ "], "
      ++ q "when_to_see_doctor" ++ ": [" ++ q "Vision loss" ++ "], "
      ++ q "precautions" ++ ": [], "
      ++ q "disclaimer" ++ ": " ++ q "Not medical advice." ++ ", "
      ++ q "source" ++ ": " ++ q "model" ++ "}".
Definition full_value : PyVal :=
  PyDict [("condition", PyStr "Migraine");
          ("severity", PyStr "mild");
          ("confidence", PyStr "high");
          ("analysis", PyStr "May indicate migraine.");
          ("remedies", PyList [PyStr "Rest"; PyStr "Hydrate"]);
          ("when_to_see_doctor", PyList [PyStr "Vision loss"]);
          ("precautions", PyList []);
          ("disclaimer", PyStr "Not medical advice.");
          ("source", PyStr "model")].

Definition decoder : Json.Decoder :=
  decoder_of_table
    [(partial_text, partial_value);
     (unrecognized_text, unrecognized_value);
     (full_text, full_value)].

(** The example of the module's [main]. *)
Definition headache : PyVal :=
  PyStr "persistent headache for 2 days, nauseous, sensitive to light".
Definition headache_info : list (string * PyVal) :=
  [("age", PyInt 30); ("gender", PyStr "female"); ("duration", PyStr "2 days")].
Definition headache_prompt : string :=
  ServviaSymptomAnalyzer._build_prompt headache (Some headache_info).

(** A provider that answers [full_text], whole and in four chunks, one
    of them without content. *)
Definition full_deltas : list (option string) :=
  [Some (substring 0 40 full_text); None;
   Some (substring 40 100 full_text);
   Some (substring 140 (String.length full_text - 140) full_text)].
Definition chunked : ServviaSymptomAnalyzer.Analyzer :=
  new_analyzer (canned_client (Some full_text) full_deltas).

(** The facade over a provider that answers [partial_text]. *)
Definition api : ServviaAPI.API :=
  ServviaAPI.mkAPI (new_analyzer (canned_client (Some partial_text) [])).

(** A provider that answers with prose, whole and in three chunks. *)
Definition prose : ServviaSymptomAnalyzer.Analyzer :=
  new_analyzer (canned_client (Some "not json") [Some "not"; None; Some " json"]).

(** A provider that refuses every request. *)
Definition rate_limited : ServviaSymptomAnalyzer.Analyzer :=
  new_analyzer
    (mkClient
       (fun _ => inl (mkExc (LibraryError "RateLimitError") "Rate limit reached"))
       (fun _ => inl (mkExc (LibraryError "RateLimitError") "Rate limit reached"))).

(** A provider whose stream breaks after two chunks. *)
Definition dropped : ServviaSymptomAnalyzer.Analyzer :=
  new_analyzer
    (mkClient
       (fun _ => inr (mkCompletion []))
       (fun _ =>
          inr (mkStream [mkChunk [Some "{"]; mkChunk [None]]
                 (Some (mkExc (LibraryError "APIConnectionError") "Connection error."))))).

(** A provider whose second chunk has no choices. *)
Definition usage_chunk : ServviaSymptomAnalyzer.Analyzer :=
  new_analyzer
    (mkClient
       (fun _ => inr (mkCompletion []))
       (fun _ =>
          inr (mkStream [mkChunk [Some "{"]; mkChunk []; mkChunk [Some "}"]] None))).

(** A decoder for which every text is the empty JSON list. *)
Definition list_decoder : Json.Decoder := fun _ => inr (PyList []).

End Fixture.

(* ================================================================= *)
(** ** Properties *)

Import OpenAI Eff ServviaSymptomAnalyzer Spec.

(** *** Strings *)

Lemma valid_symptoms_nonempty (s : string) :
  5 <= String.length (strip s) -> s <> EmptyString.
Proof.
  intros H E. subst s. simpl in H. lia.
Qed.

Lemma truthy_str (s : string) : s <> EmptyString -> truthy (PyStr s) = true.
Proof.
  destruct s; [congruence | reflexivity].
Qed.

Lemma valid_not_invalid (symptoms : PyVal) :
  valid_symptoms symptoms -> ~ invalid_symptoms symptoms.
Proof.
  intros (s & -> & Hlen) [Hno | (s' & E & Hshort)].
  - apply Hno. exists s. split; [reflexivity | now apply valid_symptoms_nonempty].
  - injection E as <-. lia.
Qed.

Lemma valid_or_invalid (symptoms : PyVal) :
  valid_symptoms symptoms \/ invalid_symptoms symptoms.
Proof.
  destruct symptoms as [ | b | z | r | s | l | d ];
    try (right; left; intros (s0 & E & _); discriminate E).
  destruct (Nat.lt_ge_cases (String.length (strip s)) 5) as [Hlt | Hge].
  - right. right. exists s. split; [reflexivity | exact Hlt].
  - left. exists s. split; [reflexivity | exact Hge].
Qed.

(** *** The validation of [analyze_symptoms] *)

Section Engine.
Variable json_loads : Json.Decoder.
Variable self : ServviaSymptomAnalyzer.Analyzer.

Lemma analyze_symptoms_invalid symptoms additional_info t :
  invalid_symptoms symptoms ->
  exists message,
    analyze_symptoms json_loads self symptoms additional_info t
    = (inl (mkExc ValueError message), t).
Proof.
  intros Hinv. unfold analyze_symptoms.
  destruct symptoms as [ | b | z | r | s | l | d ];
    try (destruct Hinv as [_ | (s0 & E & _)]; [ | discriminate E ]).
  1-4, 6-7: cbn [isinstance_str negb]; rewrite orb_true_r; eexists; reflexivity.
  destruct s as [ | c s ].
  - cbn. eexists. reflexivity.
  - destruct Hinv as [Hno | (s0 & E & Hshort)].
    + exfalso. apply Hno. eexists. split; [reflexivity | discriminate].
    + injection E as <-.
        cbn [truthy isinstance_str negb orb String.eqb].
        unfold bind, lift, strip_method.
        apply Nat.ltb_lt in Hshort. rewrite Hshort. eexists. reflexivity.
Qed.

Lemma analyze_symptoms_valid symptoms additional_info t :
  valid_symptoms symptoms ->
  analyze_symptoms json_loads self symptoms additional_info t
  = (reraised reraise
       (parsed json_loads (create (client self)
                       (request self (_build_prompt symptoms additional_info) None))),
     (t ++ [Sent (request self (_build_prompt symptoms additional_info) None)])%list).
Proof.
  intros (s & -> & Hlen). unfold analyze_symptoms.
  rewrite (truthy_str s (valid_symptoms_nonempty s Hlen)).
  cbn [isinstance_str negb orb].
  unfold bind at 1. unfold lift at 1. unfold strip_method.
  apply Nat.ltb_ge in Hlen. rewrite Hlen.
  unfold try_except, call_create, bind, emit, lift, raise, parsed, reraised.
  destruct (create _ _) as [e | response]; [reflexivity | ].
  destruct (item0 (choices response)) as [e | response_text]; [reflexivity | ].
  destruct (Json.loads json_loads response_text) as [e | result_data]; [reflexivity | ].
  destruct (result_of result_data) as [e | r]; reflexivity.
Qed.

End Engine.

(** *** The loop of [analyze_with_streaming] *)

Lemma append_assoc (a b c : string) : (a ++ b) ++ c = a ++ (b ++ c).
Proof.
  induction a as [ | x a IH ]; simpl; [reflexivity | now rewrite IH].
Qed.

Lemma append_empty_r (a : string) : a ++ EmptyString = a.
Proof.
  induction a as [ | x a IH ]; simpl; [reflexivity | now rewrite IH].
Qed.

Lemma cat_fragments (stream : list ChatCompletionChunk) :
  cat (fragments stream) = stream_text stream.
Proof.
  unfold fragments, stream_text.
  induction (map delta_text stream) as [ | d ds IH ]; simpl; [reflexivity | ].
  destruct d as [ | c d ]; simpl; [exact IH | now rewrite IH].
Qed.

Lemma yielded_app (t u : Trace) : yielded (t ++ u)%list = (yielded t ++ yielded u)%list.
Proof. apply flat_map_app. Qed.

Lemma sent_app (t u : Trace) : sent (t ++ u)%list = (sent t ++ sent u)%list.
Proof. apply flat_map_app. Qed.

Lemma yielded_map_Yielded (l : list string) : yielded (map Yielded l) = l.
Proof.
  induction l as [ | x l IH ]; simpl; [reflexivity | now rewrite IH].
Qed.

Lemma sent_map_Yielded (l : list string) : sent (map Yielded l) = [].
Proof.
  induction l as [ | x l IH ]; simpl; [reflexivity | exact IH].
Qed.

Lemma for_chunk_in_run (stream : list ChatCompletionChunk) :
  Forall has_choice stream ->
  forall collected_content t,
    for_chunk_in stream collected_content t
    = (inr (collected_content ++ stream_text stream),
       (t ++ map Yielded (fragments stream))%list).
Proof.
  induction 1 as [ | chunk rest Hchunk _ IH ]; intros acc t.
  - cbn. now rewrite append_empty_r, app_nil_r.
  - unfold stream_text, fragments in *. cbn [for_chunk_in map cat fold_right].
    unfold has_choice in Hchunk. unfold delta_text at 1 3.
    destruct (delta_choices chunk) as [ | [content | ] others ]; [congruence | | ].
    + unfold bind at 1, lift at 1, item0.
      destruct content as [ | c content ].
      * cbn [truthy String.eqb negb filter]. rewrite IH. reflexivity.
      * cbn [truthy String.eqb negb filter].
        unfold bind, yield, emit. rewrite IH. rewrite append_assoc.
        cbn [map]. now rewrite <- app_assoc.
    + unfold bind at 1, lift at 1, item0. cbn [String.eqb negb filter].
      rewrite IH. reflexivity.
Qed.

Section Streaming.
Variable json_loads : Json.Decoder.
Variable self : ServviaSymptomAnalyzer.Analyzer.

Lemma analyze_with_streaming_run symptoms additional_info stream t :
  create_stream (client self)
                (request self (_build_prompt symptoms additional_info) (Some true))
  = inr stream ->
  Forall has_choice (chunks stream) ->
  failure stream = None ->
  analyze_with_streaming json_loads self symptoms additional_info t
  = (reraised reraise_streaming
       (match json_loads (stream_text (chunks stream)) with
        | inl e => inl e
        | inr result_data => result_of result_data
        end),
     (t ++ Sent (request self (_build_prompt symptoms additional_info) (Some true))
        :: map Yielded (fragments (chunks stream)))%list).
Proof.
  intros Hcreate Hchoices Hfail.
  unfold analyze_with_streaming, iterate, try_except, call_create_stream, bind, emit,
    lift, raise, ret.
  rewrite Hcreate, (for_chunk_in_run _ Hchoices), Hfail. cbn [append Json.loads].
  rewrite <- app_assoc. cbn [app].
  destruct (json_loads _) as [e | result_data]; [reflexivity | ].
  destruct (result_of result_data) as [e | r]; reflexivity.
Qed.

End Streaming.

(** *** The construction of the result *)

Lemma result_of_dict (d : list (string * PyVal)) :
  result_of (PyDict d)
  = inr (mkAnalysisResult
           (field d "condition" (PyStr "Unknown"))
           (field d "severity" (PyStr "moderate"))
           (field d "confidence" (PyStr "medium"))
           (field d "analysis" (PyStr EmptyString))
           (field d "remedies" (PyList []))
           (field d "when_to_see_doctor" (PyList []))
           (field d "precautions" (PyList []))
           (field d "disclaimer" (PyStr DEFAULT_DISCLAIMER))).
Proof. reflexivity. Qed.

Lemma result_of_not_dict (v : PyVal) :
  (forall d, v <> PyDict d) -> result_of v = inl (no_attribute v "get").
Proof.
  intros Hv. destruct v; try reflexivity. now destruct (Hv d).
Qed.

Lemma field_present d key default v : lookup d key = Some v -> field d key default = v.
Proof. unfold field. now intros ->. Qed.

Lemma field_missing d key default : lookup d key = None -> field d key default = default.
Proof. unfold field. now intros ->. Qed.

Lemma analyze_symptoms_object json_loads self symptoms additional_info t
      response_text others d :
  valid_symptoms symptoms ->
  create (client self) (request self (_build_prompt symptoms additional_info) None)
  = inr (mkCompletion (Some response_text :: others)) ->
  json_loads response_text = inr (PyDict d) ->
  analyze_symptoms json_loads self symptoms additional_info t
  = (result_of (PyDict d),
     (t ++ [Sent (request self (_build_prompt symptoms additional_info) None)])%list).
Proof.
  intros Hvalid Hcreate Hjson.
  rewrite (analyze_symptoms_valid _ _ _ _ _ Hvalid), Hcreate.
  cbn [parsed choices item0 Json.loads]. rewrite Hjson, result_of_dict. reflexivity.
Qed.

Lemma reraise_class (e : PyExc) : exc_class (reraise e) = Exception.
Proof. unfold reraise. now destruct (is_JSONDecodeError e). Qed.

(** *** Builtins on sample inputs *)

Example strip_sample : strip ("  ab c " ++ nl) = "ab c".
Proof. reflexivity. Qed.

Example strip_whitespace_only : strip ("   " ++ nl) = EmptyString.
Proof. reflexivity. Qed.

Example title_sample : title (replace "_" " " "medical_history") = "Medical History".
Proof. reflexivity. Qed.

Example title_after_digit : title "hello wORLD 3rd" = "Hello World 3Rd".
Proof. reflexivity. Qed.

Example title_sharp_s :
  title (replace "_" " " (String (ascii_of_nat 223) "eta_x")) = "Sseta X".
Proof. reflexivity. Qed.

Example title_accented :
  title (String (ascii_of_nat 233) "tat civil")
  = String (ascii_of_nat 201) "tat Civil".
Proof. reflexivity. Qed.

Example title_reaches_the_added_letters :
  map ord (list_ascii_of_string (title (String (ascii_of_nat 255) (String (ascii_of_nat 181) " ")
                                        ++ String (ascii_of_nat 181) "g")))
  = [376; 181; 32; 924; 103]%N.
Proof. reflexivity. Qed.

Example str_samples :
  str (PyInt 30) = "30" /\ str (PyInt (-4)) = "-4" /\ str PyNone = "None"
  /\ str (PyBool true) = "True" /\ str (PyStr "2 days") = "2 days"
  /\ str (PyList [PyStr "a"; PyInt 1]) = "['a', 1]".
Proof. vm_compute. repeat split. Qed.

Example init_without_key :
  ServviaSymptomAnalyzer.__init__ None (fun _ => Fixture.canned_client None []) None "gpt-4o"
  = inl (mkExc ValueError
           "OpenAI API key required. Set OPENAI_API_KEY environment variable or pass api_key parameter").
Proof. reflexivity. Qed.

(** *** The prompt *)

Lemma prefix_append (a b : string) : prefix a (a ++ b) = true.
Proof.
  induction a as [ | c a IH ]; simpl.
  - now destruct b.
  - destruct (ascii_dec c c) as [_ | Hc]; [exact IH | now destruct Hc].
Qed.

Lemma prefix_append_l (sub a b : string) :
  prefix sub a = true -> prefix sub (a ++ b) = true.
Proof.
  revert a. induction sub as [ | c sub IH ]; intros a H.
  - now destruct (a ++ b).
  - destruct a as [ | c' a ]; simpl in *; [discriminate H | ].
    destruct (ascii_dec c c'); [now apply IH | discriminate H].
Qed.

Lemma contains_append_r (sub a b : string) :
  contains sub b = true -> contains sub (a ++ b) = true.
Proof.
  intros H. induction a as [ | c a IH ]; [exact H | ].
  cbn [append contains]. rewrite IH. apply orb_true_r.
Qed.

Lemma contains_append_l (sub a b : string) :
  contains sub a = true -> contains sub (a ++ b) = true.
Proof.
  induction a as [ | c a IH ]; intros H.
  - cbn [contains] in H. rewrite orb_false_r in H.
    destruct sub; [ | discriminate H]. now destruct b.
  - cbn [append contains] in *. apply orb_true_iff in H. apply orb_true_iff.
    destruct H as [H | H]; [left | right; now apply IH].
    now apply (prefix_append_l sub (String c a) b).
Qed.

Lemma contains_here (sub a b : string) : contains sub (a ++ sub ++ b) = true.
Proof.
  apply contains_append_r.
  assert (Hhead : forall s, prefix sub s = true -> contains sub s = true)
    by (intros [ | c s ] H; cbn [contains]; now rewrite H).
  apply Hhead, prefix_append.
Qed.

Lemma contains_refl (s : string) : contains s s = true.
Proof.
  generalize (contains_here s EmptyString EmptyString).
  cbn [append]. now rewrite append_empty_r.
Qed.

Lemma fold_left_rendered (info : list (string * PyVal)) (prompt : string) :
  fold_left
    (fun prompt kv =>
       prompt ++ nl ++ "- " ++ title (replace "_" " " (fst kv)) ++ ": " ++ str (snd kv))
    info prompt
  = prompt ++ cat (map rendered info).
Proof.
  revert prompt. induction info as [ | kv info IH ]; intros prompt.
  - cbn. now rewrite append_empty_r.
  - cbn [fold_left map cat fold_right]. rewrite IH.
    fold (rendered kv). now rewrite append_assoc.
Qed.

(** The prompt with metadata: the symptom text, the heading, one line per
    entry in the order of the dictionary, the closing instruction. *)
Lemma build_prompt_with_info (symptoms : PyVal) (info : list (string * PyVal)) :
  info <> [] ->
  _build_prompt symptoms (Some info)
  = ("Please analyze these symptoms:" ++ nl ++ nl ++ str symptoms)
      ++ (nl ++ nl ++ "Additional Information:")
      ++ cat (map rendered info)
      ++ nl ++ nl ++ "Provide your analysis in the specified JSON format.".
Proof.
  intros Hinfo. unfold _build_prompt.
  destruct info as [ | kv info ]; [congruence | ].
  cbn [truthy]. rewrite fold_left_rendered. now rewrite !append_assoc.
Qed.

Lemma contains_cat (sub : string) (parts : list string) (part : string) :
  In part parts -> contains sub part = true -> contains sub (cat parts) = true.
Proof.
  induction parts as [ | p parts IH ]; intros Hin Hsub; [destruct Hin | ].
  cbn [cat fold_right]. destruct Hin as [-> | Hin].
  - now apply contains_append_l.
  - apply contains_append_r. now apply IH.
Qed.

(** Every entry of the metadata is in the prompt, its key in Title Case
    with underscores replaced by spaces, its value as [str] gives it. *)
Lemma build_prompt_renders_entry symptoms info key value :
  In (key, value) info ->
  contains ("- " ++ title (replace "_" " " key) ++ ": " ++ str value)
           (_build_prompt symptoms (Some info)) = true.
Proof.
  intros Hin.
  rewrite build_prompt_with_info by (intros ->; destruct Hin).
  apply contains_append_r, contains_append_r, contains_append_l.
  apply (contains_cat _ _ (rendered (key, value))).
  - now apply in_map.
  - unfold rendered. cbn [fst snd]. apply contains_append_r, contains_refl.
Qed.

(** *** The trace of [analyze_with_streaming] on any input *)

Lemma for_chunk_in_trace (stream : list ChatCompletionChunk) :
  forall collected_content t,
  exists chunks_yielded,
    snd (for_chunk_in stream collected_content t)
    = (t ++ map Yielded chunks_yielded)%list.
Proof.
  induction stream as [ | chunk rest IH ]; intros acc t.
  - exists []. cbn. now rewrite app_nil_r.
  - cbn [for_chunk_in]. unfold bind at 1, lift at 1.
    destruct (item0 (delta_choices chunk)) as [e | [content | ]].
    + exists []. cbn. now rewrite app_nil_r.
    + destruct (truthy (PyStr content)); [ | apply IH].
      unfold bind, yield, emit.
      destruct (IH (acc ++ content) (t ++ [Yielded content])%list) as (ys & Hys).
      exists (content :: ys). rewrite Hys, <- app_assoc. reflexivity.
    + apply IH.
Qed.

(** Whatever the symptom text, the first thing [analyze_with_streaming]
    does is to send the request. *)
Lemma analyze_with_streaming_sends json_loads self symptoms additional_info t :
  exists chunks_yielded,
    snd (analyze_with_streaming json_loads self symptoms additional_info t)
    = (t ++ Sent (request self (_build_prompt symptoms additional_info) (Some true))
         :: map Yielded chunks_yielded)%list.
Proof.
  unfold analyze_with_streaming, iterate, try_except, call_create_stream, bind, emit,
    lift, raise, ret.
  destruct (create_stream _ _) as [e | stream].
  - exists []. cbn. reflexivity.
  - destruct (for_chunk_in_trace (chunks stream) EmptyString
                (t ++ [Sent (request self (_build_prompt symptoms additional_info)
                                     (Some true))])%list) as (ys & Hys).
    exists ys.
    destruct (for_chunk_in _ _ _) as [[e | collected] t'] eqn:Hloop; cbn [snd] in Hys;
      subst t'; rewrite <- app_assoc; cbn [app snd]; [reflexivity | ].
    destruct (failure stream) as [e | ]; cbn [snd]; [reflexivity | ].
    destruct (Json.loads _ _) as [e | result_data]; cbn [snd]; [reflexivity | ].
    destruct (result_of result_data); reflexivity.
Qed.

(** *** Claims *)

(** C1.  For every symptom text that is not a non-empty string, or whose
    trimmed length is below five characters (the empty string and the
    strings of whitespace among them), [analyze_symptoms] raises
    [ValueError] and leaves the trace as it was: no completion request is
    sent. *)
Theorem C1_analyze_rejects_invalid_input :
  forall (json_loads : Json.Decoder) (self : ServviaSymptomAnalyzer.Analyzer)
         (symptoms : PyVal) (additional_info : option (list (string * PyVal)))
         (t : Trace),
    invalid_symptoms symptoms ->
    exists message,
      analyze_symptoms json_loads self symptoms additional_info t
      = (inl (mkExc ValueError message), t).
Proof.
  intros. now apply analyze_symptoms_invalid.
Qed.

Lemma C1_witness :
  invalid_symptoms (PyStr ("  hi " ++ nl))
  /\ exists message,
       analyze_symptoms Fixture.decoder
         (Fixture.new_analyzer (Fixture.canned_client (Some Fixture.full_text) []))
         (PyStr ("  hi " ++ nl)) None []
       = (inl (mkExc ValueError message), []).
Proof.
  assert (H : invalid_symptoms (PyStr ("  hi " ++ nl))).
  { right. eexists. split; [reflexivity | vm_compute; lia]. }
  split; [exact H | ].
  exact (C1_analyze_rejects_invalid_input _ _ _ _ _ H).
Defined.

(** C2.  [analyze_with_streaming] on the empty symptom text: it does not
    raise [ValueError]; it sends the streaming request, yields what the
    provider streams and returns a result. *)
Theorem C2_streaming_does_not_validate :
  invalid_symptoms (PyStr EmptyString)
  /\ analyze_with_streaming Fixture.decoder
       (Fixture.new_analyzer (Fixture.canned_client None [Some Fixture.partial_text]))
       (PyStr EmptyString) None []
     = (inr (mkAnalysisResult
               (PyStr "Migraine") (PyStr "moderate") (PyStr "medium")
               (PyStr "May indicate migraine.") (PyList []) (PyList []) (PyList [])
               (PyStr DEFAULT_DISCLAIMER)),
        [Sent (request
                 (Fixture.new_analyzer (Fixture.canned_client None [Some Fixture.partial_text]))
                 ("Please analyze these symptoms:" ++ nl ++ nl ++ nl ++ nl
                  ++ "Provide your analysis in the specified JSON format.")
                 (Some true));
         Yielded Fixture.partial_text]).
Proof.
  split.
  - right. exists EmptyString. split; [reflexivity | simpl; lia].
  - vm_compute. reflexivity.
Qed.

(** C3.  For a response that decodes to a JSON object without the keys
    severity, confidence and disclaimer, [analyze_symptoms] returns a result
    with severity "moderate", confidence "medium" and the canonical
    disclaimer; each of the other five fields is the value of its key when
    the key is present, and otherwise "Unknown" (condition), the empty
    string (analysis) or the empty list (the three list fields). *)
Theorem C3_missing_keys_are_defaulted :
  forall (json_loads : Json.Decoder) (self : ServviaSymptomAnalyzer.Analyzer)
         (symptoms : PyVal) (additional_info : option (list (string * PyVal)))
         (t : Trace) (response_text : string) (others : list (option string))
         (d : list (string * PyVal)),
    valid_symptoms symptoms ->
    create (client self) (request self (_build_prompt symptoms additional_info) None)
    = inr (mkCompletion (Some response_text :: others)) ->
    json_loads response_text = inr (PyDict d) ->
    lookup d "severity" = None ->
    lookup d "confidence" = None ->
    lookup d "disclaimer" = None ->
    exists result t',
      analyze_symptoms json_loads self symptoms additional_info t = (inr result, t')
      /\ severity result = PyStr "moderate"
      /\ confidence result = PyStr "medium"
      /\ disclaimer result
         = PyStr "This is not a medical diagnosis. Consult a healthcare professional."
      /\ condition result = field d "condition" (PyStr "Unknown")
      /\ analysis result = field d "analysis" (PyStr EmptyString)
      /\ remedies result = field d "remedies" (PyList [])
      /\ when_to_see_doctor result = field d "when_to_see_doctor" (PyList [])
      /\ precautions result = field d "precautions" (PyList []).
Proof.
  intros json_loads self symptoms additional_info t response_text others d
         Hvalid Hcreate Hjson Hsev Hconf Hdis.
  rewrite (analyze_symptoms_object _ _ _ _ _ _ _ _ Hvalid Hcreate Hjson), result_of_dict.
  do 2 eexists. split; [reflexivity | ]. cbn [severity confidence disclaimer condition
    analysis remedies when_to_see_doctor precautions].
  rewrite (field_missing _ _ _ Hsev), (field_missing _ _ _ Hconf),
    (field_missing _ _ _ Hdis).
  repeat split; reflexivity.
Qed.

Lemma C3_witness :
  exists result t',
    analyze_symptoms Fixture.decoder
      (Fixture.new_analyzer (Fixture.canned_client (Some Fixture.partial_text) []))
      Fixture.headache (Some Fixture.headache_info) [] = (inr result, t')
    /\ severity result = PyStr "moderate"
    /\ confidence result = PyStr "medium"
    /\ disclaimer result
       = PyStr "This is not a medical diagnosis. Consult a healthcare professional."
    /\ condition result = PyStr "Migraine"
    /\ analysis result = PyStr "May indicate migraine."
    /\ remedies result = PyList []
    /\ when_to_see_doctor result = PyList []
    /\ precautions result = PyList [].
Proof.
  refine (C3_missing_keys_are_defaulted Fixture.decoder
            (Fixture.new_analyzer (Fixture.canned_client (Some Fixture.partial_text) []))
            Fixture.headache (Some Fixture.headache_info) [] Fixture.partial_text []
            [("condition", PyStr "Migraine"); ("analysis", PyStr "May indicate migraine.")]
            _ _ _ _ _ _).
  - exists "persistent headache for 2 days, nauseous, sensitive to light".
    split; [reflexivity | vm_compute; lia].
  - reflexivity.
  - vm_compute. reflexivity.
  - reflexivity.
  - reflexivity.
  - reflexivity.
Defined.

(** C4, as the claim states it, fails: a response whose severity is
    "critical" and whose confidence is "certain", both outside the
    vocabularies, comes back with those very values, not with "moderate"
    and "medium". *)
Lemma C4_counterexample :
  exists result t',
    Fixture.decoder Fixture.unrecognized_text
    = inr (PyDict [("severity", PyStr "critical"); ("confidence", PyStr "certain")])
    /\ analyze_symptoms Fixture.decoder
         (Fixture.new_analyzer (Fixture.canned_client (Some Fixture.unrecognized_text) []))
         Fixture.headache None [] = (inr result, t')
    /\ severity result = PyStr "critical"
    /\ severity result <> PyStr "moderate"
    /\ confidence result = PyStr "certain"
    /\ confidence result <> PyStr "medium".
Proof.
  do 2 eexists. split; [vm_compute; reflexivity | ].
  split; [vm_compute; reflexivity | ].
  cbn [severity confidence]. repeat split; discriminate.
Qed.

(** C4, amended.  For a response that decodes to a JSON object, a severity
    value that is present is copied as it is, in the vocabulary or not, and
    so is a confidence value; "moderate" and "medium" are used only when
    the key is missing. *)
Theorem C4_present_values_are_kept :
  forall (json_loads : Json.Decoder) (self : ServviaSymptomAnalyzer.Analyzer)
         (symptoms : PyVal) (additional_info : option (list (string * PyVal)))
         (t : Trace) (response_text : string) (others : list (option string))
         (d : list (string * PyVal)),
    valid_symptoms symptoms ->
    create (client self) (request self (_build_prompt symptoms additional_info) None)
    = inr (mkCompletion (Some response_text :: others)) ->
    json_loads response_text = inr (PyDict d) ->
    exists result t',
      analyze_symptoms json_loads self symptoms additional_info t = (inr result, t')
      /\ (forall v, lookup d "severity" = Some v -> severity result = v)
      /\ (lookup d "severity" = None -> severity result = PyStr "moderate")
      /\ (forall v, lookup d "confidence" = Some v -> confidence result = v)
      /\ (lookup d "confidence" = None -> confidence result = PyStr "medium").
Proof.
  intros json_loads self symptoms additional_info t response_text others d
         Hvalid Hcreate Hjson.
  rewrite (analyze_symptoms_object _ _ _ _ _ _ _ _ Hvalid Hcreate Hjson), result_of_dict.
  do 2 eexists. split; [reflexivity | ]. cbn [severity confidence].
  repeat split; intros; auto using field_present, field_missing.
Qed.

Lemma C4_witness :
  exists result t',
    analyze_symptoms Fixture.decoder
      (Fixture.new_analyzer (Fixture.canned_client (Some Fixture.unrecognized_text) []))
      Fixture.headache None [] = (inr result, t')
    /\ severity result = PyStr "critical"
    /\ confidence result = PyStr "certain".
Proof.
  destruct (C4_present_values_are_kept Fixture.decoder
              (Fixture.new_analyzer (Fixture.canned_client (Some Fixture.unrecognized_text) []))
              Fixture.headache None [] Fixture.unrecognized_text []
              [("severity", PyStr "critical"); ("confidence", PyStr "certain")])
    as (result & t' & Hrun & Hseverity & _ & Hconfidence & _).
  - exists "persistent headache for 2 days, nauseous, sensitive to light".
    split; [reflexivity | vm_compute; lia].
  - reflexivity.
  - vm_compute. reflexivity.
  - exists result, t'. split; [exact Hrun | ].
    split; [apply Hseverity | apply Hconfidence]; reflexivity.
Defined.

(** C5.  For a response that decodes to a JSON object holding the eight
    keys of the schema, [analyze_symptoms] returns the result whose fields
    are the values of those keys, one for one; the object may hold any
    other keys, and a key outside the schema put in front of a document
    changes nothing in the result built from it. *)
Theorem C5_full_document_round_trip :
  forall (json_loads : Json.Decoder) (self : ServviaSymptomAnalyzer.Analyzer)
         (symptoms : PyVal) (additional_info : option (list (string * PyVal)))
         (t : Trace) (response_text : string) (others : list (option string))
         (d : list (string * PyVal))
         (c s f a r w p m : PyVal),
    valid_symptoms symptoms ->
    create (client self) (request self (_build_prompt symptoms additional_info) None)
    = inr (mkCompletion (Some response_text :: others)) ->
    json_loads response_text = inr (PyDict d) ->
    lookup d "condition" = Some c ->
    lookup d "severity" = Some s ->
    lookup d "confidence" = Some f ->
    lookup d "analysis" = Some a ->
    lookup d "remedies" = Some r ->
    lookup d "when_to_see_doctor" = Some w ->
    lookup d "precautions" = Some p ->
    lookup d "disclaimer" = Some m ->
    (exists t',
       analyze_symptoms json_loads self symptoms additional_info t
       = (inr (mkAnalysisResult c s f a r w p m), t'))
    /\ (forall key value,
          ~ In key schema_keys ->
          result_of (PyDict ((key, value) :: d)) = result_of (PyDict d)).
Proof.
  intros json_loads self symptoms additional_info t response_text others d
         c s f a r w p m Hvalid Hcreate Hjson Hc Hs Hf Ha Hr Hw Hp Hm.
  split.
  - rewrite (analyze_symptoms_object _ _ _ _ _ _ _ _ Hvalid Hcreate Hjson), result_of_dict.
    rewrite (field_present _ _ _ _ Hc), (field_present _ _ _ _ Hs),
      (field_present _ _ _ _ Hf), (field_present _ _ _ _ Ha),
      (field_present _ _ _ _ Hr), (field_present _ _ _ _ Hw),
      (field_present _ _ _ _ Hp), (field_present _ _ _ _ Hm).
    eexists. reflexivity.
  - intros key value Hkey. rewrite !result_of_dict.
    assert (Hfield : forall k default,
               In k schema_keys ->
               field ((key, value) :: d) k default = field d k default).
    { intros k default Hk. unfold field. cbn [lookup].
      destruct (String.eqb_spec key k) as [-> | _]; [now destruct Hkey | reflexivity]. }
    rewrite !Hfield by (unfold schema_keys; cbn [In]; tauto). reflexivity.
Qed.

Lemma C5_witness :
  (exists t',
     analyze_symptoms Fixture.decoder
       (Fixture.new_analyzer (Fixture.canned_client (Some Fixture.full_text) []))
       Fixture.headache None []
     = (inr (mkAnalysisResult
               (PyStr "Migraine") (PyStr "mild") (PyStr "high")
               (PyStr "May indicate migraine.")
               (PyList [PyStr "Rest"; PyStr "Hydrate"])
               (PyList [PyStr "Vision loss"]) (PyList [])
               (PyStr "Not medical advice.")), t'))
  /\ lookup
       [("condition", PyStr "Migraine");
        ("severity", PyStr "mild");
        ("confidence", PyStr "high");
        ("analysis", PyStr "May indicate migraine.");
        ("remedies", PyList [PyStr "Rest"; PyStr "Hydrate"]);
        ("when_to_see_doctor", PyList [PyStr "Vision loss"]);
        ("precautions", PyList []);
        ("disclaimer", PyStr "Not medical advice.");
        ("source", PyStr "model")] "source" = Some (PyStr "model").
Proof.
  split; [ | reflexivity].
  refine (proj1 (C5_full_document_round_trip Fixture.decoder
            (Fixture.new_analyzer (Fixture.canned_client (Some Fixture.full_text) []))
            Fixture.headache None [] Fixture.full_text []
            [("condition", PyStr "Migraine");
             ("severity", PyStr "mild");
             ("confidence", PyStr "high");
             ("analysis", PyStr "May indicate migraine.");
             ("remedies", PyList [PyStr "Rest"; PyStr "Hydrate"]);
             ("when_to_see_doctor", PyList [PyStr "Vision loss"]);
             ("precautions", PyList []);
             ("disclaimer", PyStr "Not medical advice.");
             ("source", PyStr "model")]
            _ _ _ _ _ _ _ _ _ _ _ _ _ _ _ _ _ _ _)).
  - exists "persistent headache for 2 days, nauseous, sensitive to light".
    split; [reflexivity | vm_compute; lia].
  - reflexivity.
  - vm_compute. reflexivity.
  - reflexivity.
  - reflexivity.
  - reflexivity.
  - reflexivity.
  - reflexivity.
  - reflexivity.
  - reflexivity.
  - reflexivity.
Defined.

(** C6.  When the decoder rejects the response text with
    [JSONDecodeError], [analyze_symptoms] raises instead of returning a
    result (the exception of its [except json.JSONDecodeError] clause).
    When it rejects the text a stream adds up to, [analyze_with_streaming]
    has by then yielded every text fragment of the stream, in order, and
    raises after the last one; the fragments add up to the rejected text. *)
Theorem C6_undecodable_response_fails :
  forall (json_loads : Json.Decoder) (self : ServviaSymptomAnalyzer.Analyzer)
         (symptoms : PyVal) (additional_info : option (list (string * PyVal)))
         (t : Trace) (response_text : string) (others : list (option string))
         (stream : Stream) (e e' : PyExc),
    valid_symptoms symptoms ->
    create (client self) (request self (_build_prompt symptoms additional_info) None)
    = inr (mkCompletion (Some response_text :: others)) ->
    json_loads response_text = inl e ->
    exc_class e = JSONDecodeError ->
    create_stream (client self)
                  (request self (_build_prompt symptoms additional_info) (Some true))
    = inr stream ->
    Forall has_choice (chunks stream) ->
    failure stream = None ->
    json_loads (stream_text (chunks stream)) = inl e' ->
    exc_class e' = JSONDecodeError ->
    analyze_symptoms json_loads self symptoms additional_info t
    = (inl (mkExc Exception "AI returned invalid response format"),
       (t ++ [Sent (request self (_build_prompt symptoms additional_info) None)])%list)
    /\ analyze_with_streaming json_loads self symptoms additional_info t
       = (inl (mkExc Exception ("Failed to analyze symptoms: " ++ exc_str e')),
          (t ++ Sent (request self (_build_prompt symptoms additional_info) (Some true))
             :: map Yielded (fragments (chunks stream)))%list)
    /\ cat (fragments (chunks stream)) = stream_text (chunks stream).
Proof.
  intros json_loads self symptoms additional_info t response_text others stream e e'
         Hvalid Hcreate Hjson He Hstream Hchoices Hfail Hjson' He'.
  split; [ | split].
  - rewrite (analyze_symptoms_valid _ _ _ _ _ Hvalid), Hcreate.
    cbn [parsed choices item0 Json.loads]. rewrite Hjson.
    unfold reraised, reraise, is_JSONDecodeError. now rewrite He.
  - rewrite (analyze_with_streaming_run _ _ _ _ _ _ Hstream Hchoices Hfail), Hjson'.
    reflexivity.
  - apply cat_fragments.
Qed.

Lemma C6_witness :
  analyze_symptoms Fixture.decoder Fixture.prose Fixture.headache None []
  = (inl (mkExc Exception "AI returned invalid response format"),
     [Sent (request Fixture.prose (_build_prompt Fixture.headache None) None)])
  /\ analyze_with_streaming Fixture.decoder Fixture.prose Fixture.headache None []
     = (inl (mkExc Exception
               "Failed to analyze symptoms: Expecting value: line 1 column 1 (char 0)"),
        [Sent (request Fixture.prose (_build_prompt Fixture.headache None) (Some true));
         Yielded "not"; Yielded " json"])
  /\ cat ["not"; " json"] = "not json".
Proof.
  refine (C6_undecodable_response_fails Fixture.decoder Fixture.prose
            Fixture.headache None [] "not json" []
            (mkStream [mkChunk [Some "not"]; mkChunk [None]; mkChunk [Some " json"]] None)
            (mkExc JSONDecodeError "Expecting value: line 1 column 1 (char 0)")
            (mkExc JSONDecodeError "Expecting value: line 1 column 1 (char 0)")
            _ _ _ _ _ _ _ _ _).
  - exists "persistent headache for 2 days, nauseous, sensitive to light".
    split; [reflexivity | vm_compute; lia].
  - reflexivity.
  - vm_compute. reflexivity.
  - reflexivity.
  - reflexivity.
  - repeat constructor; discriminate.
  - reflexivity.
  - vm_compute. reflexivity.
  - reflexivity.
Defined.

(** C7, as the claim states it, fails: the prompt built for the metadata
    age 30, gender "female", duration "2 days" holds "Age: 30" but neither
    "Gender: Female" nor "Duration: 2 Days". *)
Lemma C7_counterexample :
  ~ (contains "Age: 30" Fixture.headache_prompt = true
     /\ contains "Gender: Female" Fixture.headache_prompt = true
     /\ contains "Duration: 2 Days" Fixture.headache_prompt = true).
Proof.
  intros (_ & Hgender & _). vm_compute in Hgender. discriminate Hgender.
Qed.

(** C7, amended.  The prompt built for that metadata holds "Age: 30",
    "Gender: female" and "Duration: 2 days": the key is rendered in Title
    Case with underscores replaced by spaces, the value as [str] gives it. *)
Theorem C7_prompt_renders_metadata :
  contains "Age: 30" Fixture.headache_prompt = true
  /\ contains "Gender: female" Fixture.headache_prompt = true
  /\ contains "Duration: 2 days" Fixture.headache_prompt = true
  /\ contains "Gender: Female" Fixture.headache_prompt = false
  /\ contains "Duration: 2 Days" Fixture.headache_prompt = false.
Proof.
  vm_compute. repeat split.
Qed.

(** C8.  Let the provider answer the request of [analyze_symptoms] with a
    payload and the streaming request for the same prompt with deltas that
    add up to that payload.  Then the chunks [analyze_with_streaming]
    yields add up to the payload; every result [analyze_symptoms] returns
    is the result [analyze_with_streaming] returns; and, for a symptom text
    that passes the validation of [analyze_symptoms], every result of the
    streaming mode is the result of the other. *)
Theorem C8_streaming_agrees_with_analyze :
  forall (json_loads : Json.Decoder) (self : ServviaSymptomAnalyzer.Analyzer)
         (symptoms : PyVal) (additional_info : option (list (string * PyVal)))
         (t : Trace) (payload : string) (others : list (option string))
         (stream : Stream),
    create (client self) (request self (_build_prompt symptoms additional_info) None)
    = inr (mkCompletion (Some payload :: others)) ->
    create_stream (client self)
                  (request self (_build_prompt symptoms additional_info) (Some true))
    = inr stream ->
    Forall has_choice (chunks stream) ->
    failure stream = None ->
    stream_text (chunks stream) = payload ->
    (exists chunks_yielded,
       yielded (snd (analyze_with_streaming json_loads self symptoms additional_info t))
       = (yielded t ++ chunks_yielded)%list
       /\ cat chunks_yielded = payload)
    /\ (forall result,
          fst (analyze_symptoms json_loads self symptoms additional_info t) = inr result ->
          fst (analyze_with_streaming json_loads self symptoms additional_info t)
          = inr result)
    /\ (valid_symptoms symptoms ->
        forall result,
          fst (analyze_with_streaming json_loads self symptoms additional_info t)
          = inr result ->
          fst (analyze_symptoms json_loads self symptoms additional_info t) = inr result).
Proof.
  intros json_loads self symptoms additional_info t payload others stream
         Hcreate Hstream Hchoices Hfail Htext.
  rewrite (analyze_with_streaming_run _ _ _ _ _ _ Hstream Hchoices Hfail), Htext.
  cbn [fst snd].
  assert (Hvalid_run : valid_symptoms symptoms ->
            fst (analyze_symptoms json_loads self symptoms additional_info t)
            = reraised reraise
                (match json_loads payload with
                 | inl e => inl e
                 | inr result_data => result_of result_data
                 end)).
  { intros Hvalid. rewrite (analyze_symptoms_valid _ _ _ _ _ Hvalid), Hcreate.
    reflexivity. }
  split; [ | split].
  - exists (fragments (chunks stream)). split.
    + change (?a ++ ?x :: ?l)%list with (a ++ [x] ++ l)%list.
      rewrite !yielded_app, yielded_map_Yielded. cbn [yielded flat_map app].
      reflexivity.
    + now rewrite cat_fragments.
  - intros result Hrun.
    destruct (valid_or_invalid symptoms) as [Hvalid | Hinvalid].
    + rewrite (Hvalid_run Hvalid) in Hrun.
      destruct (json_loads payload) as [e | result_data]; [discriminate Hrun | ].
      destruct (result_of result_data) as [e | r]; [discriminate Hrun | exact Hrun].
    + destruct (analyze_symptoms_invalid json_loads self _ additional_info t Hinvalid)
        as (message & Hraise).
      rewrite Hraise in Hrun. discriminate Hrun.
  - intros Hvalid result Hrun. rewrite (Hvalid_run Hvalid).
    destruct (json_loads payload) as [e | result_data]; [discriminate Hrun | ].
    destruct (result_of result_data) as [e | r]; [discriminate Hrun | exact Hrun].
Qed.

Lemma C8_witness :
  (exists chunks_yielded,
     yielded (snd (analyze_with_streaming Fixture.decoder Fixture.chunked
                     Fixture.headache None []))
     = ([] ++ chunks_yielded)%list
     /\ cat chunks_yielded = Fixture.full_text)
  /\ fst (analyze_symptoms Fixture.decoder Fixture.chunked Fixture.headache None [])
     = fst (analyze_with_streaming Fixture.decoder Fixture.chunked Fixture.headache None []).
Proof.
  destruct (C8_streaming_agrees_with_analyze Fixture.decoder Fixture.chunked
              Fixture.headache None [] Fixture.full_text []
              (mkStream (map (fun d => mkChunk [d]) Fixture.full_deltas) None))
    as (Hchunks & Hresult & _).
  - reflexivity.
  - reflexivity.
  - repeat constructor; discriminate.
  - reflexivity.
  - vm_compute. reflexivity.
  - split; [exact Hchunks | ].
    symmetry. apply Hresult. vm_compute. reflexivity.
Defined.

(** *** The facade *)

Lemma analyze_symptoms_raises json_loads self symptoms additional_info t e t' :
  analyze_symptoms json_loads self symptoms additional_info t = (inl e, t') ->
  (exc_class e = ValueError /\ invalid_symptoms symptoms /\ t' = t)
  \/ (exc_class e = Exception /\ valid_symptoms symptoms).
Proof.
  intros Hrun.
  destruct (valid_or_invalid symptoms) as [Hvalid | Hinvalid].
  - right. split; [ | exact Hvalid].
    rewrite (analyze_symptoms_valid _ _ _ _ _ Hvalid) in Hrun.
    destruct (parsed _ _) as [e0 | r]; cbn [reraised] in Hrun; [ | discriminate Hrun].
    injection Hrun as <- _. apply reraise_class.
  - left.
    destruct (analyze_symptoms_invalid json_loads self _ additional_info t Hinvalid)
      as (message & Hraise).
    rewrite Hraise in Hrun. injection Hrun as <- <-. auto.
Qed.

Lemma facade_run json_loads self symptoms age gender duration severity_level
      medical_history t :
  ServviaAPI.analyze json_loads self symptoms
                     age gender duration severity_level medical_history t
  = match analyze_symptoms json_loads (ServviaAPI.analyzer self) symptoms
            (ServviaAPI.additional_info_or_None
               age gender duration severity_level medical_history) t with
    | (inr result, t') =>
        (inr (PyDict [("status", PyStr "success"); ("data", to_dict result)]), t')
    | (inl e, t') =>
        (inr (if is_ValueError e
              then PyDict [("status", PyStr "error");
                           ("error", PyStr (exc_str e));
                           ("code", PyStr "INVALID_INPUT")]
              else PyDict [("status", PyStr "error");
                           ("error", PyStr "Failed to analyze symptoms. Please try again.");
                           ("code", PyStr "ANALYSIS_FAILED")]), t')
    end.
Proof.
  unfold ServviaAPI.analyze, try_except, bind, ret.
  destruct (analyze_symptoms _ _ _ _ t) as [[e | result] t']; [ | reflexivity].
  now destruct (is_ValueError e).
Qed.

Lemma build_additional_info_filter age gender duration severity_level medical_history :
  ServviaAPI.build_additional_info age gender duration severity_level medical_history
  = filter (fun entry => truthy (snd entry))
           [("age", age); ("gender", gender); ("duration", duration);
            ("severity_level", severity_level); ("medical_history", medical_history)].
Proof.
  unfold ServviaAPI.build_additional_info. cbn [filter snd].
  now destruct (truthy age), (truthy gender), (truthy duration), (truthy severity_level),
    (truthy medical_history).
Qed.

Lemma additional_info_or_None_truthy age gender duration severity_level medical_history :
  ServviaAPI.additional_info_or_None age gender duration severity_level medical_history
  = truthy_metadata age gender duration severity_level medical_history.
Proof.
  unfold ServviaAPI.additional_info_or_None, truthy_metadata.
  rewrite build_additional_info_filter.
  now destruct (filter _ _).
Qed.

Lemma build_prompt_closed_form (symptoms : PyVal)
      (additional_info : option (list (string * PyVal))) :
  _build_prompt symptoms additional_info
  = "Please analyze these symptoms:" ++ nl ++ nl ++ str symptoms
    ++ match additional_info with
       | Some (entry :: entries) =>
           nl ++ nl ++ "Additional Information:" ++ cat (map rendered (entry :: entries))
       | _ => EmptyString
       end
    ++ nl ++ nl ++ "Provide your analysis in the specified JSON format.".
Proof.
  destruct additional_info as [[ | entry entries] | ].
  - unfold _build_prompt. cbn [truthy]. now rewrite !append_assoc.
  - rewrite build_prompt_with_info by discriminate. now rewrite !append_assoc.
  - unfold _build_prompt. now rewrite !append_assoc.
Qed.

(** C9.  [ServviaAPI.analyze] never raises.  When the analyzer returns a
    result it returns the success dictionary, whose data is the dictionary
    of the eight fields of that result, each under its name; when the
    analyzer raises [ValueError], the error dictionary with the message of
    the exception and the code INVALID_INPUT; when the analyzer raises
    anything else, the error dictionary with the fixed message and the
    code ANALYSIS_FAILED.  The analyzer raises [ValueError] on an invalid
    symptom text only, and [Exception] otherwise. *)
Theorem C9_facade_returns_tagged_outcome :
  forall (json_loads : Json.Decoder) (self : ServviaAPI.API) (symptoms : PyVal)
         (age gender duration severity_level medical_history : PyVal) (t : Trace),
    ServviaAPI.analyze json_loads self symptoms
                       age gender duration severity_level medical_history t
    = (inr match fst (analyze_symptoms json_loads (ServviaAPI.analyzer self) symptoms
                        (truthy_metadata
                           age gender duration severity_level medical_history) t) with
           | inr result =>
               PyDict [("status", PyStr "success");
                       ("data",
                        PyDict [("condition", condition result);
                                ("severity", severity result);
                                ("confidence", confidence result);
                                ("analysis", analysis result);
                                ("remedies", remedies result);
                                ("when_to_see_doctor", when_to_see_doctor result);
                                ("precautions", precautions result);
                                ("disclaimer", disclaimer result)])]
           | inl e =>
               match exc_class e with
               | ValueError =>
                   PyDict [("status", PyStr "error");
                           ("error", PyStr (exc_str e));
                           ("code", PyStr "INVALID_INPUT")]
               | _ =>
                   PyDict [("status", PyStr "error");
                           ("error", PyStr "Failed to analyze symptoms. Please try again.");
                           ("code", PyStr "ANALYSIS_FAILED")]
               end
           end,
       snd (analyze_symptoms json_loads (ServviaAPI.analyzer self) symptoms
              (truthy_metadata age gender duration severity_level medical_history) t))
    /\ (forall e,
          fst (analyze_symptoms json_loads (ServviaAPI.analyzer self) symptoms
                 (truthy_metadata
                    age gender duration severity_level medical_history) t) = inl e ->
          (exc_class e = ValueError /\ invalid_symptoms symptoms)
          \/ (exc_class e = Exception /\ valid_symptoms symptoms))
    /\ (forall result,
          to_dict result
          = PyDict [("condition", condition result);
                    ("severity", severity result);
                    ("confidence", confidence result);
                    ("analysis", analysis result);
                    ("remedies", remedies result);
                    ("when_to_see_doctor", when_to_see_doctor result);
                    ("precautions", precautions result);
                    ("disclaimer", disclaimer result)]).
Proof.
  intros json_loads self symptoms age gender duration severity_level medical_history t.
  split; [ | split].
  - rewrite facade_run, additional_info_or_None_truthy.
    destruct (analyze_symptoms _ _ _ _ t) as [[e | result] t'] eqn:Hrun;
      cbn [fst snd]; [ | reflexivity].
    destruct (analyze_symptoms_raises _ _ _ _ _ _ _ Hrun) as [(Hc & _) | (Hc & _)];
      unfold is_ValueError; rewrite Hc; reflexivity.
  - intros e Hrun.
    destruct (analyze_symptoms _ _ _ _ t) as [r t'] eqn:Hrun'. cbn [fst] in Hrun. subst r.
    destruct (analyze_symptoms_raises _ _ _ _ _ _ _ Hrun') as [(Hc & Hi & _) | (Hc & Hv)];
      auto.
  - intros result. reflexivity.
Qed.

(** C10.  [ServviaAPI.analyze] drops every falsy metadata argument (0, the
    empty string, [None], ...) before the prompt is built: the analyzer is
    called with the truthy arguments only, under their names and in the
    order of the signature, and with [None] when all five are falsy.  So
    the user prompt of the request it sends for a symptom text that passes
    the validation has one line per truthy argument and none for a falsy
    one, and no Additional Information section at all when all five are
    falsy; for a text that fails the validation nothing is sent. *)
Theorem C10_falsy_metadata_is_dropped :
  forall (age gender duration severity_level medical_history : PyVal),
    lookup (ServviaAPI.build_additional_info
              age gender duration severity_level medical_history) "age"
    = (if truthy age then Some age else None)
    /\ lookup (ServviaAPI.build_additional_info
                 age gender duration severity_level medical_history) "gender"
       = (if truthy gender then Some gender else None)
    /\ lookup (ServviaAPI.build_additional_info
                 age gender duration severity_level medical_history) "duration"
       = (if truthy duration then Some duration else None)
    /\ lookup (ServviaAPI.build_additional_info
                 age gender duration severity_level medical_history) "severity_level"
       = (if truthy severity_level then Some severity_level else None)
    /\ lookup (ServviaAPI.build_additional_info
                 age gender duration severity_level medical_history) "medical_history"
       = (if truthy medical_history then Some medical_history else None)
    /\ (forall (json_loads : Json.Decoder) (self : ServviaAPI.API) (symptoms : PyVal)
               (t : Trace),
          ServviaAPI.analyze json_loads self symptoms
                             age gender duration severity_level medical_history t
          = match analyze_symptoms json_loads (ServviaAPI.analyzer self) symptoms
                    (truthy_metadata age gender duration severity_level medical_history)
                    t with
            | (inr result, t') =>
                (inr (PyDict [("status", PyStr "success"); ("data", to_dict result)]), t')
            | (inl e, t') =>
                (inr (if is_ValueError e
                      then PyDict [("status", PyStr "error");
                                   ("error", PyStr (exc_str e));
                                   ("code", PyStr "INVALID_INPUT")]
                      else PyDict [("status", PyStr "error");
                                   ("error",
                                    PyStr "Failed to analyze symptoms. Please try again.");
                                   ("code", PyStr "ANALYSIS_FAILED")]), t')
            end
          /\ (valid_symptoms symptoms ->
              sent (snd (ServviaAPI.analyze json_loads self symptoms
                           age gender duration severity_level medical_history t))
              = (sent t
                 ++ [request (ServviaAPI.analyzer self)
                       ("Please analyze these symptoms:" ++ nl ++ nl ++ str symptoms
                        ++ match truthy_metadata
                                   age gender duration severity_level medical_history with
                           | Some kept =>
                               nl ++ nl ++ "Additional Information:"
                               ++ cat (map rendered kept)
                           | None => EmptyString
                           end
                        ++ nl ++ nl
                        ++ "Provide your analysis in the specified JSON format.")
                       None])%list)
          /\ (invalid_symptoms symptoms ->
              sent (snd (ServviaAPI.analyze json_loads self symptoms
                           age gender duration severity_level medical_history t))
              = sent t))
    /\ (truthy age = false ->
        truthy gender = false ->
        truthy duration = false ->
        truthy severity_level = false ->
        truthy medical_history = false ->
        forall (json_loads : Json.Decoder) (self : ServviaAPI.API) (symptoms : PyVal)
               (t : Trace),
          ServviaAPI.additional_info_or_None
            age gender duration severity_level medical_history = None
          /\ truthy_metadata age gender duration severity_level medical_history = None
          /\ ServviaAPI.analyze json_loads self symptoms
                                age gender duration severity_level medical_history t
             = ServviaAPI.analyze json_loads self symptoms
                                  PyNone PyNone PyNone PyNone PyNone t
          /\ _build_prompt symptoms None
             = "Please analyze these symptoms:" ++ nl ++ nl ++ str symptoms ++ nl ++ nl
               ++ "Provide your analysis in the specified JSON format."
          /\ (sent (snd (ServviaAPI.analyze json_loads self symptoms
                           age gender duration severity_level medical_history t))
              = sent t
              \/ sent (snd (ServviaAPI.analyze json_loads self symptoms
                              age gender duration severity_level medical_history t))
                 = (sent t
                    ++ [request (ServviaAPI.analyzer self)
                                ("Please analyze these symptoms:" ++ nl ++ nl
                                 ++ str symptoms ++ nl ++ nl
                                 ++ "Provide your analysis in the specified JSON format.")
                                None])%list)).
Proof.
  intros age gender duration severity_level medical_history.
  assert (Hprompt : forall symptoms,
             _build_prompt symptoms None
             = "Please analyze these symptoms:" ++ nl ++ nl ++ str symptoms ++ nl ++ nl
               ++ "Provide your analysis in the specified JSON format.")
    by (intros; unfold _build_prompt; now rewrite !append_assoc).
  split; [ | split; [ | split; [ | split; [ | split; [ | split]]]]].
  1-5: unfold ServviaAPI.build_additional_info;
       destruct (truthy age), (truthy gender), (truthy duration),
         (truthy severity_level), (truthy medical_history); reflexivity.
  - intros json_loads self symptoms t.
    rewrite facade_run, additional_info_or_None_truthy.
    split; [reflexivity | split].
    + intros Hvalid. rewrite (analyze_symptoms_valid _ _ _ _ _ Hvalid).
      rewrite build_prompt_closed_form.
      assert (Hsection :
                match truthy_metadata age gender duration severity_level medical_history
                with
                | Some (entry :: entries) =>
                    nl ++ nl ++ "Additional Information:"
                    ++ cat (map rendered (entry :: entries))
                | _ => EmptyString
                end
                = match truthy_metadata age gender duration severity_level medical_history
                  with
                  | Some kept =>
                      nl ++ nl ++ "Additional Information:" ++ cat (map rendered kept)
                  | None => EmptyString
                  end).
      { unfold truthy_metadata. now destruct (filter _ _). }
      rewrite Hsection.
      destruct (reraised _ _) as [e | r]; cbn [snd]; now rewrite sent_app.
    + intros Hinvalid.
      destruct (analyze_symptoms_invalid json_loads (ServviaAPI.analyzer self) _
                  (truthy_metadata age gender duration severity_level medical_history)
                  t Hinvalid) as (message & ->).
      reflexivity.
  - intros Hage Hgender Hduration Hseverity Hhistory json_loads self symptoms t.
    assert (Hnone : ServviaAPI.additional_info_or_None
                      age gender duration severity_level medical_history = None).
    { unfold ServviaAPI.additional_info_or_None, ServviaAPI.build_additional_info.
      rewrite Hage, Hgender, Hduration, Hseverity, Hhistory. reflexivity. }
    split; [exact Hnone | ].
    split; [now rewrite <- additional_info_or_None_truthy | ].
    split; [unfold ServviaAPI.analyze; rewrite Hnone; reflexivity | ].
    split; [apply Hprompt | ].
    unfold ServviaAPI.analyze. rewrite Hnone. unfold try_except, bind, ret.
    destruct (valid_or_invalid symptoms) as [Hvalid | Hinvalid].
    + right. rewrite (analyze_symptoms_valid _ _ _ _ _ Hvalid), Hprompt.
      destruct (reraised _ _) as [e | r]; cbn [snd];
        [destruct (is_ValueError e) | ]; cbn [snd]; now rewrite sent_app.
    + left.
      destruct (analyze_symptoms_invalid json_loads (ServviaAPI.analyzer self) _ None t
                                         Hinvalid) as (message & ->).
      reflexivity.
Qed.

Lemma C10_witness :
  ServviaAPI.additional_info_or_None
    (PyInt 0) (PyStr EmptyString) PyNone (PyStr EmptyString) (PyList []) = None
  /\ ServviaAPI.analyze Fixture.decoder Fixture.api Fixture.headache
       (PyInt 0) (PyStr EmptyString) PyNone (PyStr EmptyString) (PyList []) []
     = ServviaAPI.analyze Fixture.decoder Fixture.api Fixture.headache
         PyNone PyNone PyNone PyNone PyNone []
  /\ contains "Additional Information:" (_build_prompt Fixture.headache None) = false
  /\ sent (snd (ServviaAPI.analyze Fixture.decoder Fixture.api Fixture.headache
                  (PyInt 0) (PyStr "female") PyNone (PyStr EmptyString) (PyList []) []))
     = [request (ServviaAPI.analyzer Fixture.api)
          ("Please analyze these symptoms:" ++ nl ++ nl
           ++ "persistent headache for 2 days, nauseous, sensitive to light"
           ++ nl ++ nl ++ "Additional Information:" ++ nl ++ "- Gender: female"
           ++ nl ++ nl ++ "Provide your analysis in the specified JSON format.")
          None].
Proof.
  destruct (C10_falsy_metadata_is_dropped
              (PyInt 0) (PyStr EmptyString) PyNone (PyStr EmptyString) (PyList []))
    as (_ & _ & _ & _ & _ & _ & Hall).
  destruct (Hall eq_refl eq_refl eq_refl eq_refl eq_refl
                 Fixture.decoder Fixture.api Fixture.headache [])
    as (Hnone & _ & Hsame & Hprompt & _).
  split; [exact Hnone | ]. split; [exact Hsame | ].
  split; [rewrite Hprompt; vm_compute; reflexivity | ].
  destruct (C10_falsy_metadata_is_dropped
              (PyInt 0) (PyStr "female") PyNone (PyStr EmptyString) (PyList []))
    as (_ & _ & _ & _ & _ & Hmixed & _).
  destruct (Hmixed Fixture.decoder Fixture.api Fixture.headache []) as (_ & Hsent & _).
  apply Hsent.
  exists "persistent headache for 2 days, nauseous, sensitive to light".
  split; [reflexivity | vm_compute; lia].
Defined.

(* ================================================================= *)
(** ** Further properties of the module *)

(** *** Construction of the analyzer *)

(** X1.  [ServviaSymptomAnalyzer.__init__]: a non-empty [api_key] is the
    key used, whatever the environment holds; without one, a non-empty
    [OPENAI_API_KEY] is used; with neither, the constructor raises
    [ValueError].  The analyzer built holds the client made from the key,
    the model given and the fixed system prompt. *)
Theorem X1_init_selects_key :
  forall (getenv : option string) (OpenAI_ : string -> Client)
         (api_key : option string) (model : string),
    (forall k, api_key = Some k -> k <> EmptyString ->
       ServviaSymptomAnalyzer.__init__ getenv OpenAI_ api_key model
       = inr (mkAnalyzer k (OpenAI_ k) model SYSTEM_PROMPT))
    /\ (forall k, (api_key = None \/ api_key = Some EmptyString) ->
          getenv = Some k -> k <> EmptyString ->
          ServviaSymptomAnalyzer.__init__ getenv OpenAI_ api_key model
          = inr (mkAnalyzer k (OpenAI_ k) model SYSTEM_PROMPT))
    /\ ((api_key = None \/ api_key = Some EmptyString) ->
        (getenv = None \/ getenv = Some EmptyString) ->
        exists message,
          ServviaSymptomAnalyzer.__init__ getenv OpenAI_ api_key model
          = inl (mkExc ValueError message)).
Proof.
  intros getenv OpenAI_ api_key model. unfold ServviaSymptomAnalyzer.__init__.
  split; [ | split].
  - intros k -> Hk. rewrite (truthy_str k Hk). cbv beta iota.
    now rewrite (truthy_str k Hk).
  - intros k Hkey -> Hk.
    destruct Hkey as [-> | ->];
      [ | change (truthy (PyStr EmptyString)) with false ]; cbv beta iota;
      now rewrite (truthy_str k Hk).
  - intros Hkey Henv.
    destruct Hkey as [-> | ->], Henv as [-> | ->]; cbn; eexists; reflexivity.
Qed.

Lemma X1_witness :
  ServviaSymptomAnalyzer.__init__ (Some "sk-env") (fun _ => Fixture.canned_client None [])
    (Some "sk-arg") "gpt-4o"
  = inr (mkAnalyzer "sk-arg" (Fixture.canned_client None []) "gpt-4o" SYSTEM_PROMPT)
  /\ ServviaSymptomAnalyzer.__init__ (Some "sk-env") (fun _ => Fixture.canned_client None [])
       (Some EmptyString) "gpt-4o"
     = inr (mkAnalyzer "sk-env" (Fixture.canned_client None []) "gpt-4o" SYSTEM_PROMPT)
  /\ exists message,
       ServviaSymptomAnalyzer.__init__ (Some EmptyString)
         (fun _ => Fixture.canned_client None []) None "gpt-4o"
       = inl (mkExc ValueError message).
Proof.
  split; [ | split].
  - apply (proj1 (X1_init_selects_key (Some "sk-env")
                    (fun _ => Fixture.canned_client None []) (Some "sk-arg") "gpt-4o")
                 "sk-arg" eq_refl).
    discriminate.
  - apply (proj1 (proj2 (X1_init_selects_key (Some "sk-env")
                    (fun _ => Fixture.canned_client None []) (Some EmptyString) "gpt-4o"))
                 "sk-env" (or_intror eq_refl) eq_refl).
    discriminate.
  - apply (proj2 (proj2 (X1_init_selects_key (Some EmptyString)
                    (fun _ => Fixture.canned_client None []) None "gpt-4o"))
                 (or_introl eq_refl) (or_intror eq_refl)).
Defined.

(** *** [analyze_symptoms]: which message, how many requests *)

(** X2.  The two validation messages of [analyze_symptoms]: a value that
    is falsy or not a [str] is refused as not a non-empty string; a
    non-empty string of fewer than five trimmed characters is refused as
    not detailed enough.  The trace is unchanged in both cases. *)
Theorem X2_validation_messages :
  forall (json_loads : Json.Decoder) (self : ServviaSymptomAnalyzer.Analyzer)
         (symptoms : PyVal) (additional_info : option (list (string * PyVal)))
         (t : Trace),
    (truthy symptoms = false \/ isinstance_str symptoms = false ->
     analyze_symptoms json_loads self symptoms additional_info t
     = (inl (mkExc ValueError "Symptoms must be a non-empty string"), t))
    /\ (forall s, symptoms = PyStr s -> s <> EmptyString ->
          String.length (strip s) < 5 ->
          analyze_symptoms json_loads self symptoms additional_info t
          = (inl (mkExc ValueError "Please provide more detailed symptom description"),
             t)).
Proof.
  intros json_loads self symptoms additional_info t. unfold analyze_symptoms. split.
  - intros [H | H]; rewrite H; cbn [negb orb]; [reflexivity | ].
    rewrite orb_true_r. reflexivity.
  - intros s -> Hs Hshort. rewrite (truthy_str s Hs). cbn [isinstance_str negb orb].
    unfold bind, lift, strip_method. apply Nat.ltb_lt in Hshort. now rewrite Hshort.
Qed.

Lemma X2_witness :
  analyze_symptoms Fixture.decoder Fixture.prose (PyInt 7) None []
  = (inl (mkExc ValueError "Symptoms must be a non-empty string"), [])
  /\ analyze_symptoms Fixture.decoder Fixture.prose (PyStr " flu ") None []
     = (inl (mkExc ValueError "Please provide more detailed symptom description"), []).
Proof.
  split.
  - apply (proj1 (X2_validation_messages Fixture.decoder Fixture.prose (PyInt 7) None [])).
    right. reflexivity.
  - apply (proj2 (X2_validation_messages Fixture.decoder Fixture.prose
                    (PyStr " flu ") None []) " flu " eq_refl).
    + discriminate.
    + vm_compute. lia.
Defined.

(** X3.  [analyze_symptoms] sends one request for a symptom text that
    passes the validation, whatever the client answers and whatever the
    decoder makes of it, and none otherwise; it yields nothing.  There is
    no second attempt. *)
Theorem X3_one_request_no_retry :
  forall (json_loads : Json.Decoder) (self : ServviaSymptomAnalyzer.Analyzer)
         (symptoms : PyVal) (additional_info : option (list (string * PyVal)))
         (t : Trace),
    yielded (snd (analyze_symptoms json_loads self symptoms additional_info t))
    = yielded t
    /\ (valid_symptoms symptoms ->
        sent (snd (analyze_symptoms json_loads self symptoms additional_info t))
        = (sent t ++ [request self (_build_prompt symptoms additional_info) None])%list)
    /\ (invalid_symptoms symptoms ->
        sent (snd (analyze_symptoms json_loads self symptoms additional_info t))
        = sent t).
Proof.
  intros json_loads self symptoms additional_info t.
  assert (Hvalid : valid_symptoms symptoms ->
            snd (analyze_symptoms json_loads self symptoms additional_info t)
            = (t ++ [Sent (request self (_build_prompt symptoms additional_info) None)])%list)
    by (intros H; now rewrite (analyze_symptoms_valid _ _ _ _ _ H)).
  assert (Hinvalid : invalid_symptoms symptoms ->
            snd (analyze_symptoms json_loads self symptoms additional_info t) = t).
  { intros H. destruct (analyze_symptoms_invalid json_loads self _ additional_info t H)
      as (message & ->). reflexivity. }
  split; [ | split].
  - destruct (valid_or_invalid symptoms) as [H | H].
    + rewrite (Hvalid H), yielded_app. cbn. now rewrite app_nil_r.
    + now rewrite (Hinvalid H).
  - intros H. rewrite (Hvalid H), sent_app. reflexivity.
  - intros H. now rewrite (Hinvalid H).
Qed.

Lemma X3_witness :
  sent (snd (analyze_symptoms Fixture.decoder Fixture.prose Fixture.headache None []))
  = [request Fixture.prose (_build_prompt Fixture.headache None) None]
  /\ sent (snd (analyze_symptoms Fixture.decoder Fixture.prose (PyStr "flu") None []))
     = [].
Proof.
  split.
  - apply (proj1 (proj2 (X3_one_request_no_retry Fixture.decoder Fixture.prose
                           Fixture.headache None []))).
    exists "persistent headache for 2 days, nauseous, sensitive to light".
    split; [reflexivity | vm_compute; lia].
  - apply (proj2 (proj2 (X3_one_request_no_retry Fixture.decoder Fixture.prose
                           (PyStr "flu") None []))).
    right. exists "flu". split; [reflexivity | vm_compute; lia].
Defined.

(** *** [analyze_symptoms]: failures of the provider and of the response *)

(** X4.  When the completion request itself raises, [analyze_symptoms]
    raises [Exception] with the message of the cause after the words
    "Failed to analyze symptoms: " - unless the cause is a
    [JSONDecodeError], which the first [except] clause takes for an
    invalid response format. *)
Theorem X4_provider_error_is_wrapped :
  forall (json_loads : Json.Decoder) (self : ServviaSymptomAnalyzer.Analyzer)
         (symptoms : PyVal) (additional_info : option (list (string * PyVal)))
         (t : Trace) (e : PyExc),
    valid_symptoms symptoms ->
    create (client self) (request self (_build_prompt symptoms additional_info) None)
    = inl e ->
    analyze_symptoms json_loads self symptoms additional_info t
    = (inl (mkExc Exception
              match exc_class e with
              | JSONDecodeError => "AI returned invalid response format"
              | _ => "Failed to analyze symptoms: " ++ exc_str e
              end),
       (t ++ [Sent (request self (_build_prompt symptoms additional_info) None)])%list).
Proof.
  intros json_loads self symptoms additional_info t e Hvalid Hcreate.
  rewrite (analyze_symptoms_valid _ _ _ _ _ Hvalid), Hcreate.
  cbn [parsed reraised]. unfold reraise, is_JSONDecodeError.
  now destruct (exc_class e).
Qed.

Lemma X4_witness :
  analyze_symptoms Fixture.decoder Fixture.rate_limited Fixture.headache None []
  = (inl (mkExc Exception "Failed to analyze symptoms: Rate limit reached"),
     [Sent (request Fixture.rate_limited (_build_prompt Fixture.headache None) None)]).
Proof.
  refine (X4_provider_error_is_wrapped Fixture.decoder Fixture.rate_limited
            Fixture.headache None []
            (mkExc (LibraryError "RateLimitError") "Rate limit reached") _ _).
  - exists "persistent headache for 2 days, nauseous, sensitive to light".
    split; [reflexivity | vm_compute; lia].
  - reflexivity.
Defined.

(** X5.  A response that decodes to a JSON value other than an object (a
    list, a string, a number, true, false, null) makes both methods raise
    [Exception] with the message of the [AttributeError] of [.get]; the
    message names the type of the value. *)
Theorem X5_non_object_response_fails :
  forall (json_loads : Json.Decoder) (self : ServviaSymptomAnalyzer.Analyzer)
         (symptoms : PyVal) (additional_info : option (list (string * PyVal)))
         (t : Trace) (response_text : string) (others : list (option string))
         (stream : Stream) (v : PyVal),
    (forall d, v <> PyDict d) ->
    json_loads response_text = inr v ->
    (valid_symptoms symptoms ->
     create (client self) (request self (_build_prompt symptoms additional_info) None)
     = inr (mkCompletion (Some response_text :: others)) ->
     fst (analyze_symptoms json_loads self symptoms additional_info t)
     = inl (mkExc Exception
              ("Failed to analyze symptoms: '" ++ type_name v
               ++ "' object has no attribute 'get'")))
    /\ (create_stream (client self)
                      (request self (_build_prompt symptoms additional_info) (Some true))
        = inr stream ->
        Forall has_choice (chunks stream) ->
        failure stream = None ->
        stream_text (chunks stream) = response_text ->
        fst (analyze_with_streaming json_loads self symptoms additional_info t)
        = inl (mkExc Exception
                 ("Failed to analyze symptoms: '" ++ type_name v
                  ++ "' object has no attribute 'get'"))).
Proof.
  intros json_loads self symptoms additional_info t response_text others stream v
         Hv Hjson.
  assert (Hget : reraise (no_attribute v "get")
                 = mkExc Exception
                     ("Failed to analyze symptoms: '" ++ type_name v
                      ++ "' object has no attribute 'get'")) by reflexivity.
  split.
  - intros Hvalid Hcreate.
    rewrite (analyze_symptoms_valid _ _ _ _ _ Hvalid), Hcreate.
    cbn [parsed choices item0 Json.loads fst]. rewrite Hjson, (result_of_not_dict v Hv).
    cbn [reraised]. now rewrite Hget.
  - intros Hstream Hchoices Hfail Htext.
    rewrite (analyze_with_streaming_run _ _ _ _ _ _ Hstream Hchoices Hfail), Htext, Hjson.
    rewrite (result_of_not_dict v Hv). reflexivity.
Qed.

Lemma X5_witness :
  fst (analyze_symptoms Fixture.list_decoder Fixture.prose Fixture.headache None [])
  = inl (mkExc Exception
           "Failed to analyze symptoms: 'list' object has no attribute 'get'")
  /\ fst (analyze_with_streaming Fixture.list_decoder Fixture.prose Fixture.headache None [])
     = inl (mkExc Exception
              "Failed to analyze symptoms: 'list' object has no attribute 'get'").
Proof.
  destruct (X5_non_object_response_fails Fixture.list_decoder Fixture.prose
              Fixture.headache None [] "not json" []
              (mkStream [mkChunk [Some "not"]; mkChunk [None]; mkChunk [Some " json"]] None)
              (PyList [])) as (Hanalyze & Hstreaming).
  - intros d. discriminate.
  - reflexivity.
  - split.
    + apply Hanalyze; [ | reflexivity].
      exists "persistent headache for 2 days, nauseous, sensitive to light".
      split; [reflexivity | vm_compute; lia].
    + apply Hstreaming; [reflexivity | | reflexivity | reflexivity].
      repeat constructor; discriminate.
Defined.

(** X6.  A completion without choices, and a completion whose first
    choice has no content, make [analyze_symptoms] raise [Exception] with
    the message of the [IndexError], respectively of the [TypeError] of
    [json.loads(None)]; the decoder is not part of the outcome. *)
Theorem X6_empty_completion_fails :
  forall (json_loads : Json.Decoder) (self : ServviaSymptomAnalyzer.Analyzer)
         (symptoms : PyVal) (additional_info : option (list (string * PyVal)))
         (t : Trace),
    valid_symptoms symptoms ->
    (create (client self) (request self (_build_prompt symptoms additional_info) None)
     = inr (mkCompletion []) ->
     fst (analyze_symptoms json_loads self symptoms additional_info t)
     = inl (mkExc Exception "Failed to analyze symptoms: list index out of range"))
    /\ (forall others,
          create (client self) (request self (_build_prompt symptoms additional_info) None)
          = inr (mkCompletion (None :: others)) ->
          fst (analyze_symptoms json_loads self symptoms additional_info t)
          = inl (mkExc Exception
                   "Failed to analyze symptoms: the JSON object must be str, bytes or bytearray, not NoneType")).
Proof.
  intros json_loads self symptoms additional_info t Hvalid.
  rewrite (analyze_symptoms_valid _ _ _ _ _ Hvalid).
  split; [intros -> | intros others ->]; reflexivity.
Qed.

Lemma X6_witness :
  fst (analyze_symptoms Fixture.decoder
         (Fixture.new_analyzer (Fixture.canned_client None [])) Fixture.headache None [])
  = inl (mkExc Exception
           "Failed to analyze symptoms: the JSON object must be str, bytes or bytearray, not NoneType").
Proof.
  refine (proj2 (X6_empty_completion_fails Fixture.decoder
                   (Fixture.new_analyzer (Fixture.canned_client None []))
                   Fixture.headache None [] _) [] _).
  - exists "persistent headache for 2 days, nauseous, sensitive to light".
    split; [reflexivity | vm_compute; lia].
  - reflexivity.
Defined.

(** *** [analyze_with_streaming]: failures in mid-stream *)

Lemma stream_text_app (pre rest : list ChatCompletionChunk) :
  stream_text (pre ++ rest) = stream_text pre ++ stream_text rest.
Proof.
  unfold stream_text. induction pre as [ | chunk pre IH ]; [reflexivity | ].
  cbn [app map cat fold_right]. fold (cat (map delta_text (pre ++ rest))).
  fold (cat (map delta_text pre)). now rewrite IH, append_assoc.
Qed.

Lemma for_chunk_in_app (pre rest : list ChatCompletionChunk) :
  Forall has_choice pre ->
  forall collected_content t,
    for_chunk_in (pre ++ rest) collected_content t
    = for_chunk_in rest (collected_content ++ stream_text pre)
                   (t ++ map Yielded (fragments pre))%list.
Proof.
  induction 1 as [ | chunk pre Hchunk _ IH ]; intros acc t.
  - cbn. now rewrite append_empty_r, app_nil_r.
  - unfold stream_text, fragments in *.
    cbn [for_chunk_in map cat fold_right app].
    unfold has_choice in Hchunk. unfold delta_text at 1 3.
    destruct (delta_choices chunk) as [ | [content | ] others ]; [congruence | | ].
    + unfold bind at 1, lift at 1, item0.
      destruct content as [ | c content ].
      * cbn [truthy String.eqb negb filter]. rewrite IH. reflexivity.
      * cbn [truthy String.eqb negb filter].
        unfold bind at 1, yield, emit. rewrite IH, append_assoc.
        cbn [map]. now rewrite <- app_assoc.
    + unfold bind at 1, lift at 1, item0. cbn [String.eqb negb filter].
      rewrite IH. reflexivity.
Qed.

(** X7.  When the transport fails after the last chunk of a stream, the
    chunks already yielded stay yielded, and [analyze_with_streaming]
    raises [Exception] with the message of the failure; it returns no
    result, whatever the text collected so far. *)
Theorem X7_stream_failure_after_chunks :
  forall (json_loads : Json.Decoder) (self : ServviaSymptomAnalyzer.Analyzer)
         (symptoms : PyVal) (additional_info : option (list (string * PyVal)))
         (t : Trace) (stream : Stream) (e : PyExc),
    create_stream (client self)
                  (request self (_build_prompt symptoms additional_info) (Some true))
    = inr stream ->
    Forall has_choice (chunks stream) ->
    failure stream = Some e ->
    analyze_with_streaming json_loads self symptoms additional_info t
    = (inl (mkExc Exception ("Failed to analyze symptoms: " ++ exc_str e)),
       (t ++ Sent (request self (_build_prompt symptoms additional_info) (Some true))
          :: map Yielded (fragments (chunks stream)))%list).
Proof.
  intros json_loads self symptoms additional_info t stream e Hstream Hchoices Hfail.
  unfold analyze_with_streaming, iterate, try_except, call_create_stream, bind, emit,
    lift, raise, ret.
  rewrite Hstream, (for_chunk_in_run _ Hchoices), Hfail.
  rewrite <- app_assoc. reflexivity.
Qed.

Lemma X7_witness :
  analyze_with_streaming Fixture.decoder Fixture.dropped Fixture.headache None []
  = (inl (mkExc Exception "Failed to analyze symptoms: Connection error."),
     [Sent (request Fixture.dropped (_build_prompt Fixture.headache None) (Some true));
      Yielded "{"]).
Proof.
  refine (X7_stream_failure_after_chunks Fixture.decoder Fixture.dropped
            Fixture.headache None []
            (mkStream [mkChunk [Some "{"]; mkChunk [None]]
                      (Some (mkExc (LibraryError "APIConnectionError") "Connection error.")))
            (mkExc (LibraryError "APIConnectionError") "Connection error.") _ _ _).
  - reflexivity.
  - repeat constructor; discriminate.
  - reflexivity.
Defined.

(** X8.  A chunk without choices ends the stream at that chunk: what the
    chunks before it carried has been yielded, nothing of the chunks after
    it is, and [analyze_with_streaming] raises [Exception] with the message
    of the [IndexError]. *)
Theorem X8_chunk_without_choices_stops_stream :
  forall (json_loads : Json.Decoder) (self : ServviaSymptomAnalyzer.Analyzer)
         (symptoms : PyVal) (additional_info : option (list (string * PyVal)))
         (t : Trace) (stream : Stream) (before after : list ChatCompletionChunk),
    create_stream (client self)
                  (request self (_build_prompt symptoms additional_info) (Some true))
    = inr stream ->
    chunks stream = (before ++ mkChunk [] :: after)%list ->
    Forall has_choice before ->
    analyze_with_streaming json_loads self symptoms additional_info t
    = (inl (mkExc Exception "Failed to analyze symptoms: list index out of range"),
       (t ++ Sent (request self (_build_prompt symptoms additional_info) (Some true))
          :: map Yielded (fragments before))%list).
Proof.
  intros json_loads self symptoms additional_info t stream before after
         Hstream Hchunks Hbefore.
  unfold analyze_with_streaming, iterate, try_except, call_create_stream, bind, emit,
    lift, raise, ret.
  rewrite Hstream, Hchunks, (for_chunk_in_app _ _ Hbefore).
  cbn [for_chunk_in delta_choices item0]. unfold bind, lift.
  rewrite <- app_assoc. reflexivity.
Qed.

Lemma X8_witness :
  analyze_with_streaming Fixture.decoder Fixture.usage_chunk Fixture.headache None []
  = (inl (mkExc Exception "Failed to analyze symptoms: list index out of range"),
     [Sent (request Fixture.usage_chunk (_build_prompt Fixture.headache None) (Some true));
      Yielded "{"]).
Proof.
  refine (X8_chunk_without_choices_stops_stream Fixture.decoder Fixture.usage_chunk
            Fixture.headache None []
            (mkStream [mkChunk [Some "{"]; mkChunk []; mkChunk [Some "}"]] None)
            [mkChunk [Some "{"]] [mkChunk [Some "}"]] _ _ _).
  - reflexivity.
  - reflexivity.
  - repeat constructor; discriminate.
Defined.

Lemma for_chunk_in_nonempty (stream : list ChatCompletionChunk) :
  forall collected_content t,
  exists chunks_yielded,
    snd (for_chunk_in stream collected_content t)
    = (t ++ map Yielded chunks_yielded)%list
    /\ Forall (fun chunk => chunk <> EmptyString) chunks_yielded.
Proof.
  induction stream as [ | chunk rest IH ]; intros acc t.
  - exists []. cbn. rewrite app_nil_r. split; [reflexivity | constructor].
  - cbn [for_chunk_in]. unfold bind at 1, lift at 1.
    destruct (item0 (delta_choices chunk)) as [e | [content | ]].
    + exists []. cbn. rewrite app_nil_r. split; [reflexivity | constructor].
    + destruct content as [ | c content ]; cbn [truthy String.eqb negb]; [apply IH | ].
      unfold bind, yield, emit.
      destruct (IH (acc ++ String c content) (t ++ [Yielded (String c content)])%list)
        as (ys & Hys & Hne).
      exists (String c content :: ys). rewrite Hys, <- app_assoc.
      split; [reflexivity | constructor; [discriminate | exact Hne]].
    + apply IH.
Qed.

(** X9.  On every input, with every client and decoder,
    [analyze_with_streaming] first sends its request, then yields chunks
    none of which is empty, and does nothing else; and whatever it raises
    is an [Exception] whose message starts with "Failed to analyze
    symptoms: " - never the [ValueError] of an input validation. *)
Theorem X9_streaming_trace_and_errors :
  forall (json_loads : Json.Decoder) (self : ServviaSymptomAnalyzer.Analyzer)
         (symptoms : PyVal) (additional_info : option (list (string * PyVal)))
         (t : Trace),
    (exists chunks_yielded,
       snd (analyze_with_streaming json_loads self symptoms additional_info t)
       = (t ++ Sent (request self (_build_prompt symptoms additional_info) (Some true))
            :: map Yielded chunks_yielded)%list
       /\ Forall (fun chunk => chunk <> EmptyString) chunks_yielded)
    /\ (forall e,
          fst (analyze_with_streaming json_loads self symptoms additional_info t) = inl e ->
          exc_class e = Exception
          /\ exists cause, exc_str e = "Failed to analyze symptoms: " ++ cause).
Proof.
  intros json_loads self symptoms additional_info t.
  unfold analyze_with_streaming, iterate, try_except, call_create_stream, bind, emit,
    lift, raise, ret.
  destruct (create_stream _ _) as [e0 | stream].
  - split.
    + exists []. split; [reflexivity | constructor].
    + intros e [= <-]. split; [reflexivity | eexists; reflexivity].
  - destruct (for_chunk_in_nonempty (chunks stream) EmptyString
                (t ++ [Sent (request self (_build_prompt symptoms additional_info)
                                     (Some true))])%list) as (ys & Hys & Hne).
    destruct (for_chunk_in _ _ _) as [[e0 | collected] t'] eqn:Hloop; cbn [snd] in Hys;
      subst t'; rewrite <- app_assoc; cbn [app fst snd].
    + split; [exists ys; auto | ].
      intros e [= <-]. split; [reflexivity | eexists; reflexivity].
    + destruct (failure stream) as [e0 | ]; cbn [fst snd].
      * split; [exists ys; auto | ].
        intros e [= <-]. split; [reflexivity | eexists; reflexivity].
      * destruct (Json.loads _ _) as [e0 | result_data]; cbn [fst snd].
        -- split; [exists ys; auto | ].
           intros e [= <-]. split; [reflexivity | eexists; reflexivity].
        -- destruct (result_of result_data) as [e0 | r]; cbn [fst snd];
             (split; [exists ys; auto | ]).
           ++ intros e [= <-]. split; [reflexivity | eexists; reflexivity].
           ++ intros e [=].
Qed.

(** *** The result and its dictionary *)

(** X10.  [to_dict] and the construction of a result from a document are
    inverse to each other on results: building a result from the
    dictionary of a result gives that result back, no default being
    used. *)
Theorem X10_to_dict_round_trip :
  forall (result : AnalysisResult),
    result_of (to_dict result) = inr result
    /\ forall key, In key schema_keys ->
         exists value, get (to_dict result) key PyNone = inr value
                       /\ get (to_dict result) key (PyStr "other") = inr value.
Proof.
  intros [c s f a r w p d]. split; [reflexivity | ].
  intros key Hkey. unfold schema_keys in Hkey. cbn [In] in Hkey.
  repeat (destruct Hkey as [<- | Hkey]; [eexists; split; reflexivity | ]).
  destruct Hkey.
Qed.

(** *** The prompt *)

(** X11.  The user prompt is the opening line, the symptom text as [str]
    renders it (not trimmed), then - only when the metadata is a non-empty
    dictionary - the heading and one line per entry in the order of the
    dictionary, then the closing instruction.  An empty dictionary gives
    the prompt of no metadata at all. *)
Theorem X11_prompt_shape :
  forall (symptoms : PyVal) (additional_info : option (list (string * PyVal))),
    _build_prompt symptoms additional_info
    = "Please analyze these symptoms:" ++ nl ++ nl ++ str symptoms
      ++ match additional_info with
         | Some (entry :: entries) =>
             nl ++ nl ++ "Additional Information:" ++ cat (map rendered (entry :: entries))
         | _ => EmptyString
         end
      ++ nl ++ nl ++ "Provide your analysis in the specified JSON format.".
Proof.
  intros symptoms [[ | entry entries] | ].
  - unfold _build_prompt. cbn [truthy]. now rewrite !append_assoc.
  - rewrite build_prompt_with_info by discriminate. now rewrite !append_assoc.
  - unfold _build_prompt. now rewrite !append_assoc.
Qed.











(** *** The facade *)

(** X13.  The metadata dictionary the facade builds holds the truthy
    arguments and only them, under the names age, gender, duration,
    severity_level, medical_history, in that order; no name occurs
    twice. *)
Theorem X13_additional_info_is_the_truthy_arguments :
  forall (age gender duration severity_level medical_history : PyVal),
    ServviaAPI.build_additional_info age gender duration severity_level medical_history
    = filter (fun entry => truthy (snd entry))
             [("age", age); ("gender", gender); ("duration", duration);
              ("severity_level", severity_level); ("medical_history", medical_history)]
    /\ NoDup (map fst (ServviaAPI.build_additional_info
                         age gender duration severity_level medical_history)).
Proof.
  intros age gender duration severity_level medical_history.
  split; [apply build_additional_info_filter | ].
  rewrite build_additional_info_filter. cbn [filter snd].
  destruct (truthy age), (truthy gender), (truthy duration), (truthy severity_level),
    (truthy medical_history);
    cbn [map fst];
    repeat (constructor; [cbn [In]; intuition discriminate | ]); constructor.
Qed.

(** X14.  On a symptom text that fails the validation the facade sends
    nothing and returns the INVALID_INPUT outcome with the message of the
    check that failed: not a non-empty string, or not detailed enough. *)
Theorem X14_facade_rejects_invalid_input :
  forall (json_loads : Json.Decoder) (self : ServviaAPI.API) (symptoms : PyVal)
         (age gender duration severity_level medical_history : PyVal) (t : Trace),
    (truthy symptoms = false \/ isinstance_str symptoms = false ->
     ServviaAPI.analyze json_loads self symptoms
                        age gender duration severity_level medical_history t
     = (inr (PyDict [("status", PyStr "error");
                     ("error", PyStr "Symptoms must be a non-empty string");
                     ("code", PyStr "INVALID_INPUT")]), t))
    /\ (forall s, symptoms = PyStr s -> s <> EmptyString ->
          String.length (strip s) < 5 ->
          ServviaAPI.analyze json_loads self symptoms
                             age gender duration severity_level medical_history t
          = (inr (PyDict [("status", PyStr "error");
                          ("error", PyStr "Please provide more detailed symptom description");
                          ("code", PyStr "INVALID_INPUT")]), t)).
Proof.
  intros json_loads self symptoms age gender duration severity_level medical_history t.
  rewrite facade_run. unfold analyze_symptoms. split.
  - intros [H | H]; rewrite H; cbn [negb orb]; [reflexivity | ].
    rewrite orb_true_r. reflexivity.
  - intros s -> Hs Hshort. rewrite (truthy_str s Hs). cbn [isinstance_str negb orb].
    unfold bind, lift, strip_method. apply Nat.ltb_lt in Hshort. now rewrite Hshort.
Qed.

Lemma X14_witness :
  ServviaAPI.analyze Fixture.decoder Fixture.api PyNone
    (PyInt 30) PyNone PyNone PyNone PyNone []
  = (inr (PyDict [("status", PyStr "error");
                  ("error", PyStr "Symptoms must be a non-empty string");
                  ("code", PyStr "INVALID_INPUT")]), [])
  /\ ServviaAPI.analyze Fixture.decoder Fixture.api (PyStr "flu")
       (PyInt 30) PyNone PyNone PyNone PyNone []
     = (inr (PyDict [("status", PyStr "error");
                     ("error", PyStr "Please provide more detailed symptom description");
                     ("code", PyStr "INVALID_INPUT")]), []).
Proof.
  split.
  - apply (proj1 (X14_facade_rejects_invalid_input Fixture.decoder Fixture.api PyNone
                    (PyInt 30) PyNone PyNone PyNone PyNone [])).
    left. reflexivity.
  - apply (proj2 (X14_facade_rejects_invalid_input Fixture.decoder Fixture.api (PyStr "flu")
                    (PyInt 30) PyNone PyNone PyNone PyNone []) "flu" eq_refl).
    + discriminate.
    + vm_compute. lia.
Defined.

Lemma additional_info_or_None_entries age gender duration severity_level medical_history
      key value :
  In (key, value)
     [("age", age); ("gender", gender); ("duration", duration);
      ("severity_level", severity_level); ("medical_history", medical_history)] ->
  truthy value = true ->
  exists info,
    ServviaAPI.additional_info_or_None age gender duration severity_level medical_history
    = Some info
    /\ In (key, value) info.
Proof.
  intros Hin Htruthy.
  assert (Hkept : In (key, value)
                     (ServviaAPI.build_additional_info
                        age gender duration severity_level medical_history)).
  { rewrite build_additional_info_filter.
    apply filter_In. split; [exact Hin | exact Htruthy]. }
  unfold ServviaAPI.additional_info_or_None.
  destruct (ServviaAPI.build_additional_info _ _ _ _ _) as [ | entry entries ];
    [destruct Hkept | ].
  cbn [truthy]. eexists. split; [reflexivity | exact Hkept].
Qed.

(** X15.  For a symptom text that passes the validation, the facade sends
    one request, and the user prompt of that request holds a line for
    every truthy metadata argument: "- Age: ...", "- Gender: ...",
    "- Duration: ...", "- Severity Level: ...", "- Medical History: ...". *)
Theorem X15_facade_prompt_holds_truthy_metadata :
  forall (json_loads : Json.Decoder) (self : ServviaAPI.API) (symptoms : PyVal)
         (age gender duration severity_level medical_history : PyVal) (t : Trace)
         (key : string) (value : PyVal),
    valid_symptoms symptoms ->
    In (key, value)
       [("age", age); ("gender", gender); ("duration", duration);
        ("severity_level", severity_level); ("medical_history", medical_history)] ->
    truthy value = true ->
    exists user_message,
      sent (snd (ServviaAPI.analyze json_loads self symptoms
                   age gender duration severity_level medical_history t))
      = (sent t ++ [request (ServviaAPI.analyzer self) user_message None])%list
      /\ contains ("- " ++ title (replace "_" " " key) ++ ": " ++ str value)
                  user_message = true.
Proof.
  intros json_loads self symptoms age gender duration severity_level medical_history t
         key value Hvalid Hin Htruthy.
  destruct (additional_info_or_None_entries _ _ _ _ _ _ _ Hin Htruthy)
    as (info & Hinfo & Hentry).
  exists (_build_prompt symptoms (Some info)). split.
  - rewrite facade_run, Hinfo, (analyze_symptoms_valid _ _ _ _ _ Hvalid).
    destruct (reraised _ _) as [e | r]; cbn [snd]; now rewrite sent_app.
  - now apply build_prompt_renders_entry.
Qed.

Lemma X15_witness :
  exists user_message,
    sent (snd (ServviaAPI.analyze Fixture.decoder Fixture.api Fixture.headache
                 (PyInt 30) (PyStr "female") PyNone (PyStr "severe") PyNone []))
    = ([] ++ [request (ServviaAPI.analyzer Fixture.api) user_message None])%list
    /\ contains ("- " ++ title (replace "_" " " "severity_level") ++ ": "
                 ++ str (PyStr "severe")) user_message = true.
Proof.
  refine (X15_facade_prompt_holds_truthy_metadata Fixture.decoder Fixture.api
            Fixture.headache (PyInt 30) (PyStr "female") PyNone (PyStr "severe") PyNone []
            "severity_level" (PyStr "severe") _ _ _).
  - exists "persistent headache for 2 days, nauseous, sensitive to light".
    split; [reflexivity | vm_compute; lia].
  - do 3 right. left. reflexivity.
  - reflexivity.
Defined.

(** *** The Flask view *)

Lemma facade_returns json_loads self symptoms age gender duration severity_level
      medical_history t :
  exists outcome t',
    ServviaAPI.analyze json_loads self symptoms
                       age gender duration severity_level medical_history t
    = (inr outcome, t').
Proof.
  rewrite facade_run.
  destruct (analyze_symptoms _ _ _ _ t) as [[e | result] t']; do 2 eexists; reflexivity.
Qed.

Lemma flask_object_run json_loads servvia_api d symptoms t :
  lookup d "symptoms" = Some symptoms ->
  FlaskApp.analyze_symptoms json_loads servvia_api (PyDict d) t
  = match ServviaAPI.analyze json_loads servvia_api symptoms
            (field d "age" PyNone) (field d "gender" PyNone) (field d "duration" PyNone)
            (field d "severity_level" PyNone) (field d "medical_history" PyNone) t with
    | (inr outcome, t') => (inr (outcome, 200%Z), t')
    | (inl e, t') => (inl e, t')
    end.
Proof.
  intros Hsymptoms. unfold FlaskApp.analyze_symptoms.
  assert (Htruthy : truthy (PyDict d) = true)
    by (destruct d; [discriminate Hsymptoms | reflexivity]).
  rewrite Htruthy. cbn [negb contains_str get]. rewrite Hsymptoms.
  unfold bind, lift, ret. cbn [negb]. unfold field.
  now destruct (ServviaAPI.analyze _ _ _ _ _ _ _ _ t) as [[e | outcome] t'].
Qed.

(** X16.  The Flask view answers 400 with "Symptoms field is required",
    and sends nothing, when the body is falsy (null, an empty object or
    list or string, 0, false) or does not hold "symptoms" (as a key of an
    object, an element of a list, a part of a string). *)
Theorem X16_flask_requires_symptoms :
  forall (json_loads : Json.Decoder) (servvia_api : ServviaAPI.API) (data : PyVal)
         (t : Trace),
    truthy data = false \/ contains_str "symptoms" data = inr false ->
    FlaskApp.analyze_symptoms json_loads servvia_api data t
    = (inr (PyDict [("status", PyStr "error");
                    ("error", PyStr "Symptoms field is required")], 400%Z), t).
Proof.
  intros json_loads servvia_api data t H. unfold FlaskApp.analyze_symptoms.
  destruct (truthy data) eqn:Htruthy.
  - destruct H as [H | H]; [discriminate H | ].
    cbn [negb]. unfold bind, lift, ret. rewrite H. reflexivity.
  - reflexivity.
Qed.

Lemma X16_witness :
  FlaskApp.analyze_symptoms Fixture.decoder Fixture.api
    (PyDict [("age", PyInt 30)]) []
  = (inr (PyDict [("status", PyStr "error");
                  ("error", PyStr "Symptoms field is required")], 400%Z), []).
Proof.
  apply (X16_flask_requires_symptoms Fixture.decoder Fixture.api
           (PyDict [("age", PyInt 30)]) []).
  right. reflexivity.
Defined.

(** X17.  For a body that is an object with the key "symptoms", the Flask
    view returns, with status 200, what the facade returns for the value
    of "symptoms" and the values of the five metadata keys ([None] for a
    key that is missing); it does not raise.  The status is 200 also when
    the outcome of the facade is an error. *)
Theorem X17_flask_object_body :
  forall (json_loads : Json.Decoder) (servvia_api : ServviaAPI.API)
         (d : list (string * PyVal)) (symptoms : PyVal) (t : Trace),
    lookup d "symptoms" = Some symptoms ->
    exists outcome t',
      ServviaAPI.analyze json_loads servvia_api symptoms
        (field d "age" PyNone) (field d "gender" PyNone) (field d "duration" PyNone)
        (field d "severity_level" PyNone) (field d "medical_history" PyNone) t
      = (inr outcome, t')
      /\ FlaskApp.analyze_symptoms json_loads servvia_api (PyDict d) t
         = (inr (outcome, 200%Z), t').
Proof.
  intros json_loads servvia_api d symptoms t Hsymptoms.
  destruct (facade_returns json_loads servvia_api symptoms
              (field d "age" PyNone) (field d "gender" PyNone) (field d "duration" PyNone)
              (field d "severity_level" PyNone) (field d "medical_history" PyNone) t)
    as (outcome & t' & Hrun).
  exists outcome, t'. split; [exact Hrun | ].
  now rewrite (flask_object_run _ _ _ _ _ Hsymptoms), Hrun.
Qed.

Lemma X17_witness :
  exists outcome t',
    ServviaAPI.analyze Fixture.decoder Fixture.api (PyStr "flu")
      PyNone PyNone (PyStr "2 days") PyNone PyNone []
    = (inr outcome, t')
    /\ FlaskApp.analyze_symptoms Fixture.decoder Fixture.api
         (PyDict [("symptoms", PyStr "flu"); ("duration", PyStr "2 days")]) []
       = (inr (outcome, 200%Z), t').
Proof.
  apply (X17_flask_object_body Fixture.decoder Fixture.api
           [("symptoms", PyStr "flu"); ("duration", PyStr "2 days")] (PyStr "flu") []).
  reflexivity.
Defined.

Ltac flask_cases :=
  cbn; repeat split; try discriminate; intros;
  try congruence;
  try (match goal with
       | H : inl _ = inl _ |- _ => injection H as <-; split; reflexivity
       end).

(** X18.  A body that is not an object never reaches the facade: nothing
    is sent, and the view does not answer 200.  It answers 400 when the
    body is falsy or does not hold "symptoms"; a list with the element
    "symptoms" and a string with the part "symptoms" make it raise the
    [AttributeError] of [.get]; a number other than zero and [true] make
    it raise the [TypeError] of [in]. *)
Theorem X18_flask_non_object_body :
  forall (json_loads : Json.Decoder) (servvia_api : ServviaAPI.API) (data : PyVal)
         (t : Trace),
    (forall d, data <> PyDict d) ->
    snd (FlaskApp.analyze_symptoms json_loads servvia_api data t) = t
    /\ (forall body, fst (FlaskApp.analyze_symptoms json_loads servvia_api data t)
                     <> inr (body, 200%Z))
    /\ (truthy data = true ->
        contains_str "symptoms" data = inr true ->
        fst (FlaskApp.analyze_symptoms json_loads servvia_api data t)
        = inl (no_attribute data "get"))
    /\ (truthy data = true ->
        forall e, contains_str "symptoms" data = inl e ->
        exc_class e = TypeError
        /\ fst (FlaskApp.analyze_symptoms json_loads servvia_api data t) = inl e).
Proof.
  intros json_loads servvia_api data t Hdata. unfold FlaskApp.analyze_symptoms.
  destruct data as [ | b | z | r | s | l | d ]; [ | | | | | | now destruct (Hdata d)].
  - flask_cases.
  - destruct b; flask_cases.
  - destruct (truthy (PyInt z)) eqn:Hz; flask_cases.
  - destruct (truthy (PyFloat r)) eqn:Hr; flask_cases.
  - destruct (truthy (PyStr s)) eqn:Hs; [ | flask_cases].
    cbn [negb contains_str]. destruct (contains "symptoms" s); flask_cases.
  - destruct (truthy (PyList l)) eqn:Hl; [ | flask_cases].
    cbn [negb contains_str]. destruct (existsb _ l); flask_cases.
Qed.

Lemma X18_witness :
  snd (FlaskApp.analyze_symptoms Fixture.decoder Fixture.api
         (PyList [PyStr "symptoms"]) []) = []
  /\ fst (FlaskApp.analyze_symptoms Fixture.decoder Fixture.api
            (PyList [PyStr "symptoms"]) [])
     = inl (mkExc AttributeError "'list' object has no attribute 'get'").
Proof.
  destruct (X18_flask_non_object_body Fixture.decoder Fixture.api
              (PyList [PyStr "symptoms"]) []) as (Hsent & _ & Hraise & _).
  - intros d. discriminate.
  - split; [exact Hsent | ]. apply Hraise; reflexivity.
Defined.

(** *** The FastAPI endpoint *)

(** X19.  The FastAPI endpoint returns the success dictionary when the
    analyzer returns a result, and raises [HTTPException] with status 400
    in every other case: with the validation message as detail when the
    analyzer raised [ValueError], with "Failed to analyze symptoms. Please
    try again." when it raised anything else.  It raises nothing but
    [HTTPException]. *)
Theorem X19_fastapi_outcomes :
  forall (json_loads : Json.Decoder) (servvia_api : ServviaAPI.API)
         (request : FastAPIApp.SymptomRequest) (t : Trace),
    FastAPIApp.analyze_symptoms json_loads servvia_api request t
    = match analyze_symptoms json_loads (ServviaAPI.analyzer servvia_api)
              (PyStr (FastAPIApp.symptoms request))
              (ServviaAPI.additional_info_or_None
                 (FastAPIApp.of_int (FastAPIApp.age request))
                 (FastAPIApp.of_str (FastAPIApp.gender request))
                 (FastAPIApp.of_str (FastAPIApp.duration request))
                 (FastAPIApp.of_str (FastAPIApp.severity_level request))
                 (FastAPIApp.of_str (FastAPIApp.medical_history request))) t with
      | (inr result, t') =>
          (inr (PyDict [("status", PyStr "success"); ("data", to_dict result)]), t')
      | (inl e, t') =>
          (inl (FastAPIApp.HTTPException 400%Z
                  (PyStr match exc_class e with
                         | ValueError => exc_str e
                         | _ => "Failed to analyze symptoms. Please try again."
                         end)), t')
      end.
Proof.
  intros json_loads servvia_api request t.
  unfold FastAPIApp.analyze_symptoms. rewrite facade_run.
  destruct (analyze_symptoms _ _ _ _ t) as [[e | result] t'] eqn:Hrun; [ | reflexivity].
  destruct (analyze_symptoms_raises _ _ _ _ _ _ _ Hrun) as [(Hc & _) | (Hc & _)];
    unfold is_ValueError; rewrite Hc; reflexivity.
Qed.

(** X20.  The two applications on the same request.  Flask answers 200
    with the outcome of the facade as body, whatever the outcome; FastAPI
    returns that outcome when its status is "success" and otherwise raises
    [HTTPException] 400 with the "error" of the outcome as detail.  Both
    leave the same trace. *)
Theorem X20_flask_and_fastapi_on_the_same_request :
  forall (json_loads : Json.Decoder) (servvia_api : ServviaAPI.API)
         (request : FastAPIApp.SymptomRequest) (t : Trace),
  exists outcome t',
    FlaskApp.analyze_symptoms json_loads servvia_api
      (PyDict [("symptoms", PyStr (FastAPIApp.symptoms request));
               ("age", FastAPIApp.of_int (FastAPIApp.age request));
               ("gender", FastAPIApp.of_str (FastAPIApp.gender request));
               ("duration", FastAPIApp.of_str (FastAPIApp.duration request));
               ("severity_level", FastAPIApp.of_str (FastAPIApp.severity_level request));
               ("medical_history", FastAPIApp.of_str (FastAPIApp.medical_history request))])
      t
    = (inr (PyDict outcome, 200%Z), t')
    /\ ((lookup outcome "status" = Some (PyStr "success")
         /\ FastAPIApp.analyze_symptoms json_loads servvia_api request t
            = (inr (PyDict outcome), t'))
        \/ (lookup outcome "status" = Some (PyStr "error")
            /\ exists detail,
                 lookup outcome "error" = Some detail
                 /\ FastAPIApp.analyze_symptoms json_loads servvia_api request t
                    = (inl (FastAPIApp.HTTPException 400%Z detail), t'))).
Proof.
  intros json_loads servvia_api request t.
  rewrite (flask_object_run _ _ _ (PyStr (FastAPIApp.symptoms request)))
    by reflexivity.
  unfold FastAPIApp.analyze_symptoms, field.
  cbn [lookup String.eqb Ascii.eqb Bool.eqb].
  rewrite facade_run.
  destruct (analyze_symptoms _ _ _ _ t) as [[e | result] t'].
  - destruct (is_ValueError e); do 2 eexists; (split; [reflexivity | ]);
      right; (split; [reflexivity | ]); eexists; split; reflexivity.
  - do 2 eexists. split; [reflexivity | ]. left. split; reflexivity.
Qed.

(** X21.  [create_flask_app] raises [ValueError] when [OPENAI_API_KEY] is
    unset or empty, before any view exists; otherwise its view is the view
    over the facade of an analyzer with that key, the client made from it
    and the model gpt-4o. *)
Theorem X21_create_flask_app_needs_the_key :
  forall (json_loads : Json.Decoder) (getenv : option string)
         (OpenAI_ : string -> Client),
    (getenv = None \/ getenv = Some EmptyString ->
     exists message,
       FlaskApp.create_flask_app json_loads getenv OpenAI_
       = inl (mkExc ValueError message))
    /\ (forall key, getenv = Some key -> key <> EmptyString ->
          FlaskApp.create_flask_app json_loads getenv OpenAI_
          = inr (FlaskApp.analyze_symptoms json_loads
                   (ServviaAPI.mkAPI
                      (mkAnalyzer key (OpenAI_ key) "gpt-4o" SYSTEM_PROMPT)))).
Proof.
  intros json_loads getenv OpenAI_.
  unfold FlaskApp.create_flask_app, ServviaAPI.__init__, ServviaSymptomAnalyzer.__init__.
  split.
  - intros [-> | ->]; cbn; eexists; reflexivity.
  - intros key -> Hkey. now rewrite (truthy_str key Hkey).
Qed.

Lemma X21_witness :
  (exists message,
     FlaskApp.create_flask_app Fixture.decoder None (fun _ => Fixture.canned_client None [])
     = inl (mkExc ValueError message))
  /\ FlaskApp.create_flask_app Fixture.decoder (Some "sk-env")
       (fun _ => Fixture.canned_client None [])
     = inr (FlaskApp.analyze_symptoms Fixture.decoder
              (ServviaAPI.mkAPI
                 (mkAnalyzer "sk-env" (Fixture.canned_client None []) "gpt-4o"
                             SYSTEM_PROMPT))).
Proof.
  split.
  - apply (proj1 (X21_create_flask_app_needs_the_key Fixture.decoder None
                    (fun _ => Fixture.canned_client None []))).
    left. reflexivity.
  - apply (proj2 (X21_create_flask_app_needs_the_key Fixture.decoder (Some "sk-env")
                    (fun _ => Fixture.canned_client None [])) "sk-env" eq_refl).
    discriminate.
Defined.

(** *** Whitespace around the symptom text *)

Lemma lstrip_blank_app (w x : string) : blank w = true -> lstrip (w ++ x) = lstrip x.
Proof.
  induction w as [ | c w IH ]; intros H; [reflexivity | ].
  cbn [blank] in H. apply andb_true_iff in H. destruct H as (Hc & Hw).
  cbn [append lstrip]. rewrite Hc. now apply IH.
Qed.

Lemma rstrip_blank (w : string) : blank w = true -> rstrip w = EmptyString.
Proof.
  induction w as [ | c w IH ]; intros H; [reflexivity | ].
  cbn [blank] in H. apply andb_true_iff in H. destruct H as (Hc & Hw).
  cbn [rstrip]. now rewrite (IH Hw), Hc.
Qed.

Lemma rstrip_app_blank (x w : string) : blank w = true -> rstrip (x ++ w) = rstrip x.
Proof.
  intros H. induction x as [ | c x IH ]; [now apply rstrip_blank | ].
  cbn [append rstrip]. now rewrite IH.
Qed.

Lemma lstrip_app_blank (s w : string) :
  blank w = true ->
  lstrip (s ++ w) = match lstrip s with
                    | EmptyString => EmptyString
                    | kept => kept ++ w
                    end.
Proof.
  intros H. induction s as [ | c s IH ].
  - cbn [append lstrip]. rewrite <- (append_empty_r w) at 1.
    now rewrite (lstrip_blank_app w EmptyString H).
  - cbn [append lstrip]. destruct (isspace c); [exact IH | reflexivity].
Qed.

Lemma strip_padding (before s after : string) :
  blank before = true -> blank after = true ->
  strip (before ++ s ++ after) = strip s.
Proof.
  intros Hbefore Hafter. unfold strip.
  rewrite (lstrip_blank_app _ _ Hbefore), (lstrip_app_blank _ _ Hafter).
  destruct (lstrip s) as [ | c kept ]; [reflexivity | ].
  now apply rstrip_app_blank.
Qed.

Lemma build_prompt_opening (symptoms : PyVal)
      (additional_info : option (list (string * PyVal))) :
  exists rest,
    _build_prompt symptoms additional_info
    = "Please analyze these symptoms:" ++ nl ++ nl ++ str symptoms ++ rest.
Proof.
  destruct additional_info as [[ | entry entries] | ].
  - eexists. unfold _build_prompt. cbn [truthy]. now rewrite !append_assoc.
  - eexists. rewrite build_prompt_with_info by discriminate.
    now rewrite !append_assoc.
  - eexists. unfold _build_prompt. now rewrite !append_assoc.
Qed.

(** X22.  Whitespace around a symptom text changes neither its trimmed
    form nor, therefore, whether [analyze_symptoms] accepts it; but an
    accepted text goes into the request with its whitespace, as given. *)
Theorem X22_padding_does_not_change_validation :
  forall (json_loads : Json.Decoder) (self : ServviaSymptomAnalyzer.Analyzer)
         (before s after : string) (additional_info : option (list (string * PyVal)))
         (t : Trace),
    blank before = true ->
    blank after = true ->
    strip (before ++ s ++ after) = strip s
    /\ (valid_symptoms (PyStr (before ++ s ++ after)) <-> valid_symptoms (PyStr s))
    /\ (valid_symptoms (PyStr s) ->
        exists rest,
          sent (snd (analyze_symptoms json_loads self (PyStr (before ++ s ++ after))
                       additional_info t))
          = (sent t
             ++ [request self
                         ("Please analyze these symptoms:" ++ nl ++ nl
                          ++ (before ++ s ++ after) ++ rest) None])%list).
Proof.
  intros json_loads self before s after additional_info t Hbefore Hafter.
  pose proof (strip_padding before s after Hbefore Hafter) as Hstrip.
  assert (Hiff : valid_symptoms (PyStr (before ++ s ++ after)) <-> valid_symptoms (PyStr s)).
  { unfold valid_symptoms. split; intros (x & [= <-] & Hlen).
    - exists s. split; [reflexivity | now rewrite <- Hstrip].
    - eexists. split; [reflexivity | now rewrite Hstrip]. }
  split; [exact Hstrip | split; [exact Hiff | ]].
  intros Hvalid. apply Hiff in Hvalid.
  destruct (build_prompt_opening (PyStr (before ++ s ++ after)) additional_info)
    as (rest & Hprompt).
  exists rest. rewrite (analyze_symptoms_valid _ _ _ _ _ Hvalid), Hprompt.
  cbn [snd str]. now rewrite sent_app.
Qed.

Lemma X22_witness :
  strip ("  " ++ "fever" ++ nl) = strip "fever"
  /\ (valid_symptoms (PyStr ("  " ++ "fever" ++ nl)) <-> valid_symptoms (PyStr "fever")).
Proof.
  destruct (X22_padding_does_not_change_validation Fixture.decoder Fixture.prose
              "  " "fever" nl None [] eq_refl eq_refl) as (Hstrip & Hvalid & _).
  split; [exact Hstrip | exact Hvalid].
Defined.

(** *** What every request carries *)

(** X23.  Every request that [analyze_symptoms] or
    [analyze_with_streaming] adds to the trace carries the model of the
    analyzer, two messages - the system prompt of the analyzer under the
    role "system", then the built prompt under the role "user" -, the
    temperature 0.7, at most 2000 tokens and the JSON-object response
    format; [stream] is set by the streaming method only. *)
Theorem X23_requests_carry_the_fixed_parameters :
  forall (json_loads : Json.Decoder) (self : ServviaSymptomAnalyzer.Analyzer)
         (symptoms : PyVal) (additional_info : option (list (string * PyVal)))
         (t : Trace) (sent_request : Request) (streaming : bool),
    In sent_request
       (sent (snd (if streaming
                   then analyze_with_streaming json_loads self symptoms additional_info t
                   else analyze_symptoms json_loads self symptoms additional_info t))) ->
    In sent_request (sent t)
    \/ (OpenAI.model sent_request = ServviaSymptomAnalyzer.model self
        /\ messages sent_request
           = [mkMessage "system" (system_prompt self);
              mkMessage "user" (_build_prompt symptoms additional_info)]
        /\ temperature sent_request = (7 # 10)%Q
        /\ max_tokens sent_request = 2000%Z
        /\ response_format sent_request = [("type", "json_object")]
        /\ OpenAI.stream sent_request = (if streaming then Some true else None)).
Proof.
  intros json_loads self symptoms additional_info t sent_request [ | ] Hin.
  - destruct (analyze_with_streaming_sends json_loads self symptoms additional_info t)
      as (ys & Htrace).
    rewrite Htrace in Hin.
    change (t ++ ?x :: map Yielded ys)%list with (t ++ [x] ++ map Yielded ys)%list in Hin.
    rewrite !sent_app, sent_map_Yielded, app_nil_r in Hin. apply in_app_or in Hin.
    destruct Hin as [Hin | [<- | []]]; [now left | right].
    repeat split.
  - destruct (valid_or_invalid symptoms) as [Hvalid | Hinvalid].
    + rewrite (analyze_symptoms_valid _ _ _ _ _ Hvalid) in Hin. cbn [snd] in Hin.
      rewrite sent_app in Hin. apply in_app_or in Hin.
      destruct Hin as [Hin | [<- | []]]; [now left | right].
      repeat split.
    + destruct (analyze_symptoms_invalid json_loads self _ additional_info t Hinvalid)
        as (message & Hraise).
      rewrite Hraise in Hin. now left.
Qed.

Lemma X23_witness :
  In (request Fixture.prose (_build_prompt Fixture.headache None) (Some true)) []
  \/ (OpenAI.model (request Fixture.prose (_build_prompt Fixture.headache None) (Some true))
      = ServviaSymptomAnalyzer.model Fixture.prose
      /\ messages (request Fixture.prose (_build_prompt Fixture.headache None) (Some true))
         = [mkMessage "system" (system_prompt Fixture.prose);
            mkMessage "user" (_build_prompt Fixture.headache None)]
      /\ temperature (request Fixture.prose (_build_prompt Fixture.headache None)
                              (Some true)) = (7 # 10)%Q
      /\ max_tokens (request Fixture.prose (_build_prompt Fixture.headache None)
                             (Some true)) = 2000%Z
      /\ response_format (request Fixture.prose (_build_prompt Fixture.headache None)
                                  (Some true)) = [("type", "json_object")]
      /\ OpenAI.stream (request Fixture.prose (_build_prompt Fixture.headache None)
                                (Some true)) = Some true).
Proof.
  apply (X23_requests_carry_the_fixed_parameters Fixture.decoder Fixture.prose
           Fixture.headache None []
           (request Fixture.prose (_build_prompt Fixture.headache None) (Some true)) true).
  vm_compute. left. reflexivity.
Defined.
